(** * Return/risk analytics and market-data fetcher: a shallow embedding

    The development follows the two Python modules of the repository,
    [src/analysis/returns.py] and [src/data/fetcher.py].

    Numbers.  The analytics work on pandas Series of binary64 values.  Two
    embeddings of the same code are given.

    - Modules [F], [Pd], [Returns] and [Summary] keep the special values
      of the format (the two infinities and NaN, which pandas also uses as
      its "missing" marker) and compute on the finite values with exact
      real arithmetic: rounding and overflow are left out, and zero
      carries no sign (a division by zero behaves as a division by +0).
      Statements over this embedding give the value of a result as the
      expression the code evaluates, operation for operation, or a fact
      that no rounding can change.  Python integers are taken in the
      range of a signed 64-bit word wherever their size matters.

    - Module [B64] runs the return computations on binary64 itself (the
      kernel's primitive floats).  It gives the values the code really
      returns, and shows where an identity of real arithmetic is not an
      identity of the program.

    Series.  Every operation of [returns.py] keeps the index of its
    argument, and every binary operation combines two series that carry the
    same index, which pandas then combines position by position.  A Series
    is therefore embedded as the list of its values, in index order.

    Text.  A Python [str] is a sequence of Unicode code points. *)

From Stdlib Require Floats.
From Stdlib Require Import Reals RList Lra Lia ZArith NArith String Ascii Bool List.
Import ListNotations.

Open Scope R_scope.

(** ** Python text *)

Module Py.

Definition codepoint := N.
Definition str := list codepoint.

(** A source literal (all literals of the two modules are ASCII). *)
Definition lit (s : string) : str :=
  List.map N_of_ascii (list_ascii_of_string s).

(** [a == b] on [str]. *)
Fixpoint str_eqb (a b : str) : bool :=
  match a, b with
  | [], [] => true
  | x :: a', y :: b' => N.eqb x y && str_eqb a' b'
  | _, _ => false
  end.

(** Exceptions raised by the modelled code. *)
Inductive exception :=
| ValueError (msg : str)
| ZeroDivisionError.

(** A computation either returns a value or raises. *)
Inductive result (A : Type) :=
| Ok (a : A)
| Raise (e : exception).
Arguments Ok {A} a.
Arguments Raise {A} e.

Definition bind {A B : Type} (m : result A) (k : A -> result B) : result B :=
  match m with
  | Ok a => k a
  | Raise e => Raise e
  end.

(** [a / b] on two Python [int]s: true division, raising on a zero divisor.
    The quotient is exact here; Python rounds it to binary64
    ([B64.int_truediv]), so that a divisor of hundreds of digits makes it
    0.0.  The statements keep to integers of 64 bits. *)
Definition int_truediv (a b : Z) : result R :=
  if Z.eqb b 0 then Raise ZeroDivisionError else Ok (IZR a / IZR b).

(** [a / b] on Python [float]s (finite here): raising on a zero divisor. *)
Definition float_truediv (a b : R) : result R :=
  if Req_dec_T b 0 then Raise ZeroDivisionError else Ok (a / b).

End Py.

Notation "x <- m ;; k" := (Py.bind m (fun x => k))
  (at level 61, m at next level, right associativity).

(** ** IEEE values with exact arithmetic on the finite ones *)

Module F.

Inductive float :=
| Fin (x : R)
| PInf
| NInf
| NaN.

Inductive sign := Neg | Zero | Pos.

Definition Rsign (x : R) : sign :=
  match total_order_T x 0 with
  | inleft (left _) => Neg
  | inleft (right _) => Zero
  | inright _ => Pos
  end.

Definition sign_mul (a b : sign) : sign :=
  match a, b with
  | Zero, _ | _, Zero => Zero
  | Pos, Pos | Neg, Neg => Pos
  | _, _ => Neg
  end.

(** The sign of a value that is not NaN. *)
Definition fsign (a : float) : sign :=
  match a with
  | Fin x => Rsign x
  | PInf => Pos
  | NInf => Neg
  | NaN => Zero
  end.

(** The infinity of a given sign; the invalid cases (0 * inf, 0 / 0) give NaN. *)
Definition inf (s : sign) : float :=
  match s with
  | Pos => PInf
  | Neg => NInf
  | Zero => NaN
  end.

Definition isnan (a : float) : bool :=
  match a with NaN => true | _ => false end.

Definition fadd (a b : float) : float :=
  match a, b with
  | NaN, _ | _, NaN => NaN
  | Fin x, Fin y => Fin (x + y)
  | PInf, NInf | NInf, PInf => NaN
  | PInf, _ | _, PInf => PInf
  | NInf, _ | _, NInf => NInf
  end.

Definition fsub (a b : float) : float :=
  match a, b with
  | NaN, _ | _, NaN => NaN
  | Fin x, Fin y => Fin (x - y)
  | PInf, PInf | NInf, NInf => NaN
  | PInf, _ | _, NInf => PInf
  | NInf, _ | _, PInf => NInf
  end.

Definition fmul (a b : float) : float :=
  match a, b with
  | NaN, _ | _, NaN => NaN
  | Fin x, Fin y => Fin (x * y)
  | _, _ => inf (sign_mul (fsign a) (fsign b))
  end.

(** Division.  Zero has no sign here: a division by zero is a division by
    +0 (in binary64 a division by -0.0 gives the opposite infinity). *)
Definition fdiv (a b : float) : float :=
  match a, b with
  | NaN, _ | _, NaN => NaN
  | Fin x, Fin y => if Req_dec_T y 0 then inf (Rsign x) else Fin (x / y)
  | Fin _, _ => Fin 0
  | _, Fin y => inf (sign_mul (fsign a) (if Rlt_dec y 0 then Neg else Pos))
  | _, _ => NaN
  end.

(** [np.maximum] and [np.minimum] on values that are not NaN. *)
Definition fle (a b : float) : bool :=
  match a, b with
  | NInf, _ | _, PInf => true
  | Fin x, Fin y => if Rle_dec x y then true else false
  | _, _ => false
  end.

Definition fmax (a b : float) : float := if fle a b then b else a.
Definition fmin (a b : float) : float := if fle a b then a else b.

(** [np.log]. *)
Definition log (a : float) : float :=
  match a with
  | Fin x =>
      match Rsign x with
      | Pos => Fin (ln x)
      | Zero => NInf
      | Neg => NaN
      end
  | PInf => PInf
  | _ => NaN
  end.

(** [np.sqrt]. *)
Definition sqrt (a : float) : float :=
  match a with
  | Fin x => if Rle_dec 0 x then Fin (R_sqrt.sqrt x) else NaN
  | PInf => PInf
  | _ => NaN
  end.

(** Whether a real is an integer, and whether that integer is odd. *)
Definition is_integer (e : R) : bool :=
  if Req_dec_T (IZR (Int_part e)) e then true else false.

Definition is_odd_integer (e : R) : bool :=
  is_integer e && Z.odd (Int_part e).

(** [b ** e] for a binary64 base and a finite exponent (C's [pow]). *)
Definition power (b : float) (e : R) : float :=
  match Rsign e with
  | Zero => Fin 1
  | se =>
      match b with
      | NaN => NaN
      | Fin x =>
          match Rsign x with
          | Pos => Fin (Rpower x e)
          | Zero => match se with Pos => Fin 0 | _ => PInf end
          | Neg => if is_integer e then Fin (powerRZ x (Int_part e)) else NaN
          end
      | PInf => match se with Pos => PInf | _ => Fin 0 end
      | NInf =>
          match se with
          | Pos => if is_odd_integer e then NInf else PInf
          | _ => Fin 0
          end
      end
  end.

End F.

(** ** The pandas operations used by [returns.py] *)

Module Pd.
Import F.

Definition Series := list float.

Fixpoint map2 {A B C : Type} (f : A -> B -> C) (a : list A) (b : list B)
  : list C :=
  match a, b with
  | x :: a', y :: b' => f x y :: map2 f a' b'
  | _, _ => []
  end.

(** Replace the missing entries by [v] ([vals[mask] = v]). *)
Definition fill (v : float) (s : Series) : Series :=
  List.map (fun x => if isnan x then v else x) s.

(** Put the missing entries of [orig] back into [r] ([result[mask] = nan]). *)
Definition restore (orig r : Series) : Series :=
  map2 (fun o x => if isnan o then NaN else x) orig r.

(** [s.shift(1)]: every value moves one position down, the first is missing. *)
Definition shift1 (s : Series) : Series :=
  match s with
  | [] => []
  | _ :: _ => NaN :: removelast s
  end.

(** [a / b] and [a - b] on two series with the same index. *)
Definition div (a b : Series) : Series := map2 fdiv a b.
Definition sub (a b : Series) : Series := map2 fsub a b.

(** [c + s] and [s - c] for a scalar [c]. *)
Definition radd (c : float) (s : Series) : Series := List.map (fadd c) s.
Definition sub_scalar (s : Series) (c : float) : Series :=
  List.map (fun x => fsub x c) s.

(** [s.pct_change()]: [s / s.shift(1) - 1].  (pandas versions that first
    forward-fill missing prices agree with this on every series without
    missing values.) *)
Definition pct_change (s : Series) : Series :=
  sub_scalar (div s (shift1 s)) (Fin 1).

(** [ufunc.accumulate]: the running results of [f] from the left. *)
Fixpoint accumulate_from (f : float -> float -> float) (acc : float)
  (l : list float) : list float :=
  match l with
  | [] => []
  | x :: t => let a := f acc x in a :: accumulate_from f a t
  end.

Definition accumulate (f : float -> float -> float) (l : list float)
  : list float :=
  match l with
  | [] => []
  | x :: t => x :: accumulate_from f x t
  end.

(** pandas' cumulative operations skip missing entries: they are replaced
    by the neutral value, accumulated over, and made missing again. *)
Definition na_accum (f : float -> float -> float) (neutral : float)
  (s : Series) : Series :=
  restore s (accumulate f (fill neutral s)).

Definition cumprod (s : Series) : Series := na_accum fmul (Fin 1) s.
Definition cummax (s : Series) : Series := na_accum fmax NInf s.

(** [s.prod()], missing entries skipped; the empty product is 1. *)
Definition prod (s : Series) : float :=
  fold_left fmul (fill (Fin 1) s) (Fin 1).

Definition sum (s : Series) : float :=
  fold_left fadd s (Fin 0).

(** Number of entries that are not missing. *)
Definition count (s : Series) : nat :=
  length (filter (fun x => negb (isnan x)) s).

(** [s.min()], missing entries skipped; NaN when nothing is left. *)
Definition min (s : Series) : float :=
  if Nat.eqb (count s) 0 then NaN
  else fold_left fmin (fill PInf s) PInf.

(** [s.var(ddof)], missing entries skipped; NaN unless more than [ddof]
    entries are left.  The mean and the deviations are exact here: in
    binary64 the rounding of the mean can leave a tiny variance that is
    not zero on a series of equal values. *)
Definition var (s : Series) (ddof : nat) : float :=
  let n := count s in
  if Nat.leb n ddof then NaN
  else
    let values := fill (Fin 0) s in
    let avg := fdiv (sum values) (Fin (INR n)) in
    let sqr :=
      map2 (fun o v => if isnan o then Fin 0
                       else fmul (fsub avg v) (fsub avg v)) s values in
    fdiv (sum sqr) (Fin (INR (n - ddof))).

(** [s.std()]: the sample standard deviation ([ddof = 1]). *)
Definition std (s : Series) : float := F.sqrt (var s 1).

(** [s.dropna()]. *)
Definition dropna (s : Series) : Series :=
  filter (fun x => negb (isnan x)) s.

End Pd.

(** ** [src/analysis/returns.py] *)

Module Returns.
Import Py F.

Definition Series := Pd.Series.

Definition calculate_returns (prices : Series) (method : str)
  : result Series :=
  if str_eqb method (lit "simple") then
    Ok (Pd.pct_change prices)
  else if str_eqb method (lit "log") then
    Ok (List.map F.log (Pd.div prices (Pd.shift1 prices)))
  else
    Raise (ValueError (lit "Unknown method: " ++ method)).

Definition calculate_cumulative_returns (returns : Series) : Series :=
  Pd.sub_scalar (Pd.cumprod (Pd.radd (Fin 1) returns)) (Fin 1).

(** The exponent [1 / years] is exact here; [B64.calculate_annualized_return]
    computes it in binary64, where it can differ from [p / n]. *)
Definition calculate_annualized_return (returns : Series)
  (periods_per_year : Z) : result float :=
  let total_return := fsub (Pd.prod (Pd.radd (Fin 1) returns)) (Fin 1) in
  let n_periods := Z.of_nat (length returns) in
  years <- int_truediv n_periods periods_per_year ;;
  e <- float_truediv 1 years ;;
  Ok (fsub (power (fadd (Fin 1) total_return) e) (Fin 1)).

(** [np.sqrt] takes a Python [int] of up to 64 bits (beyond that it raises
    [TypeError]); the statements keep [periods_per_year] in that range. *)
Definition calculate_volatility (returns : Series) (periods_per_year : Z)
  : float :=
  fmul (Pd.std returns) (F.sqrt (Fin (IZR periods_per_year))).

Definition calculate_sharpe_ratio (returns : Series) (risk_free_rate : float)
  (periods_per_year : Z) : result float :=
  ann_return <- calculate_annualized_return returns periods_per_year ;;
  let ann_vol := calculate_volatility returns periods_per_year in
  Ok (fdiv (fsub ann_return risk_free_rate) ann_vol).

Definition calculate_max_drawdown (prices : Series) : float :=
  let cummax := Pd.cummax prices in
  let drawdown := Pd.div (Pd.sub prices cummax) cummax in
  Pd.min drawdown.

End Returns.

(** ** [src/data/fetcher.py] *)

Module Fetcher.
Import Py.

(** [Union[str, List[str]]]. *)
Inductive tickers :=
| Single (t : str)
| Many (l : list str).

(** The two shapes of the call to the provider, [yf.download]
    ([progress=False] in both). *)
Inductive download_call :=
| ByRange (t : tickers) (start end_ : option str)
| ByPeriod (t : tickers) (period : str).

(** A fetch either is done or asks the provider and goes on with its answer
    (a table, or the error the provider raised). *)
Inductive fetch (DataFrame A : Type) :=
| Ret (a : A)
| Download (c : download_call) (k : result DataFrame -> fetch DataFrame A).
Arguments Ret {DataFrame A} a.
Arguments Download {DataFrame A} c k.

(** Truth value of an [Optional[str]]: [None] and the empty string are false. *)
Definition truthy (o : option str) : bool :=
  match o with
  | None => false
  | Some [] => false
  | Some (_ :: _) => true
  end.

Section Fetch.

(** The table type of the provider, opaque to this module. *)
Variable DataFrame : Type.

(** The Unicode table behind [str.isdigit] (characters whose numeric type is
    digit or decimal); it belongs to the Python runtime. *)
Variable char_isdigit : codepoint -> bool.

(** [s.isdigit()]: every character is a digit and there is at least one. *)
Definition isdigit (s : str) : bool :=
  match s with
  | [] => false
  | _ :: _ => forallb char_isdigit s
  end.

Definition get_stock_data (t : tickers) (start end_ : option str)
  (period : str) : fetch DataFrame (result DataFrame) :=
  if truthy start && truthy end_ then
    Download (ByRange t start end_) (fun data => Ret data)
  else
    Download (ByPeriod t period) (fun data => Ret data).

Definition get_korean_stock_data (ticker : str) (start end_ : option str)
  (period : str) : fetch DataFrame (result DataFrame) :=
  let ticker := if isdigit ticker then ticker ++ lit ".KS" else ticker in
  get_stock_data (Single ticker) start end_ period.

Definition get_crypto_data (symbols : tickers) (start end_ : option str)
  (period : str) : fetch DataFrame (result DataFrame) :=
  get_stock_data symbols start end_ period.

End Fetch.

(** The ASCII part of the digit table, on which every version of the
    Unicode table agrees. *)
Definition ascii_isdigit (c : codepoint) : bool :=
  (N.leb 48 c && N.leb c 57)%bool.

End Fetcher.

(** ** [performance_summary] of [src/analysis/returns.py] *)

Module Summary.
Import Py F Returns.

(** What [performance_summary] can raise: [IndexError] from [prices.iloc],
    or whatever the functions it calls raise. *)
Inductive exception :=
| IndexError
| Propagated (e : Py.exception).

Inductive outcome (A : Type) :=
| Return (a : A)
| Raise (e : exception).
Arguments Return {A} a.
Arguments Raise {A} e.

Definition bind {A B : Type} (m : outcome A) (k : A -> outcome B)
  : outcome B :=
  match m with
  | Return a => k a
  | Raise e => Raise e
  end.

Definition lift {A : Type} (m : Py.result A) : outcome A :=
  match m with
  | Py.Ok a => Return a
  | Py.Raise e => Raise (Propagated e)
  end.

(** [s.iloc[0]] and [s.iloc[-1]]. *)
Definition iloc_first (s : Series) : outcome float :=
  match s with
  | [] => Raise IndexError
  | x :: _ => Return x
  end.

Definition iloc_last (s : Series) : outcome float :=
  match s with
  | [] => Raise IndexError
  | _ :: _ => Return (last s NaN)
  end.

(** The keys of the report, as code points (Korean for: total return,
    annualised return, annualised volatility, Sharpe ratio, maximum
    drawdown). *)
Definition key_total_return : str := [52509; 32; 49688; 51061; 47456]%N.
Definition key_annualized_return : str :=
  [50672; 54872; 49328; 32; 49688; 51061; 47456]%N.
Definition key_volatility : str :=
  [50672; 54872; 49328; 32; 48320; 46041; 49457]%N.
Definition key_sharpe : str := [49380; 54532; 32; 48708; 50984]%N.
Definition key_max_drawdown : str := [52572; 45824; 32; 45209; 54253]%N.

(** Default arguments of the analytics functions. *)
Definition default_method : str := lit "simple".
Definition default_periods_per_year : Z := 252.

Section Format.

(** Python's rendering of a float under the format [.2f]; it belongs to
    the runtime. *)
Variable format_2f : float -> str.

(** [f"{x * 100:.2f}%"]. *)
Definition percent (x : float) : str :=
  format_2f (fmul x (Fin 100)) ++ lit "%".

(** The report: a Series of strings indexed by the keys, in the order in
    which the dictionary is written. *)
Definition performance_summary (prices : Series) (risk_free_rate : float)
  : outcome (list (str * str)) :=
  bind (lift (calculate_returns prices default_method)) (fun r =>
  let returns := Pd.dropna r in
  bind (iloc_last prices) (fun p_last =>
  bind (iloc_first prices) (fun p_first =>
  let total := percent (fsub (fdiv p_last p_first) (Fin 1)) in
  bind (lift (calculate_annualized_return returns default_periods_per_year))
    (fun ann =>
  let ann_s := percent ann in
  let vol_s :=
    percent (calculate_volatility returns default_periods_per_year) in
  bind (lift (calculate_sharpe_ratio returns risk_free_rate
                default_periods_per_year)) (fun sharpe =>
  let sharpe_s := format_2f sharpe in
  let mdd_s := percent (calculate_max_drawdown prices) in
  Return [ (key_total_return, total);
           (key_annualized_return, ann_s);
           (key_volatility, vol_s);
           (key_sharpe, sharpe_s);
           (key_max_drawdown, mdd_s) ]))))).

End Format.

End Summary.

(** ** The return computations on binary64 *)

Module B64.
Import Py.
Import PrimFloat.

#[local] Set Warnings "-inexact-float".
Local Open Scope float_scope.

Definition Series := list float.

(** A Python [int] as the operand of a true division. *)
Definition spec_of_int (z : Z) : SpecFloat.spec_float :=
  match z with
  | Z0 => SpecFloat.S754_zero false
  | Zpos m => SpecFloat.S754_finite false m 0
  | Zneg m => SpecFloat.S754_finite true m 0
  end.

(** [a / b] on two Python [int]s: the exact quotient rounded once to
    binary64, raising on a zero divisor.  (A quotient beyond the largest
    float raises [OverflowError] in Python; the quotient of a length by a
    non-zero integer never is.) *)
Definition int_truediv (a b : Z) : result float :=
  if Z.eqb b 0 then Raise ZeroDivisionError
  else Ok (FloatOps.SF2Prim
             (SpecFloat.SFdiv FloatOps.prec FloatOps.emax
                (spec_of_int a) (spec_of_int b))).

(** [a / b] on Python [float]s: raising on a zero divisor of either sign. *)
Definition float_truediv (a b : float) : result float :=
  if is_zero b then Raise ZeroDivisionError else Ok (a / b).

(** Whether a float is a whole number. *)
Definition is_integer (x : float) : bool :=
  match FloatOps.Prim2SF x with
  | SpecFloat.S754_zero _ => true
  | SpecFloat.S754_finite _ m e =>
      if Z.leb 0 e then true else Z.eqb (Z.pos m mod 2 ^ (- e)) 0
  | _ => false
  end.

Definition fill (v : float) (s : Series) : Series :=
  List.map (fun x => if is_nan x then v else x) s.

Definition restore (orig r : Series) : Series :=
  Pd.map2 (fun o x => if is_nan o then nan else x) orig r.

Definition shift1 (s : Series) : Series :=
  match s with
  | [] => []
  | _ :: _ => nan :: removelast s
  end.

Definition div (a b : Series) : Series := Pd.map2 PrimFloat.div a b.

Definition radd (c : float) (s : Series) : Series := List.map (add c) s.

Definition sub_scalar (s : Series) (c : float) : Series :=
  List.map (fun x => x - c) s.

Definition pct_change (s : Series) : Series :=
  sub_scalar (div s (shift1 s)) 1.

Fixpoint accumulate_from (f : float -> float -> float) (acc : float)
  (l : list float) : list float :=
  match l with
  | [] => []
  | x :: t => let a := f acc x in a :: accumulate_from f a t
  end.

Definition accumulate (f : float -> float -> float) (l : list float)
  : list float :=
  match l with
  | [] => []
  | x :: t => x :: accumulate_from f x t
  end.

Definition na_accum (f : float -> float -> float) (neutral : float)
  (s : Series) : Series :=
  restore s (accumulate f (fill neutral s)).

Definition cumprod (s : Series) : Series := na_accum mul 1 s.

Definition prod (s : Series) : float := fold_left mul (fill 1 s) 1.

Definition dropna (s : Series) : Series :=
  filter (fun x => negb (is_nan x)) s.

Section Library.

(** [np.log] and the C library's [pow], which numpy calls: both belong to
    the platform. *)
Variable np_log : float -> float.
Variable libm_pow : float -> float -> float.

(** [b ** e]: a finite negative base with a finite exponent that is not a
    whole number gives NaN (C's [pow]); the library decides the rest. *)
Definition power (b e : float) : float :=
  if (b <? 0) && is_finite b && is_finite e && negb (is_integer e)
  then nan
  else libm_pow b e.

Definition calculate_returns (prices : Series) (method : str)
  : result Series :=
  if str_eqb method (lit "simple") then
    Ok (pct_change prices)
  else if str_eqb method (lit "log") then
    Ok (List.map np_log (div prices (shift1 prices)))
  else
    Raise (ValueError (lit "Unknown method: " ++ method)).

Definition calculate_cumulative_returns (returns : Series) : Series :=
  sub_scalar (cumprod (radd 1 returns)) 1.

Definition calculate_annualized_return (returns : Series)
  (periods_per_year : Z) : result float :=
  let total_return := prod (radd 1 returns) - 1 in
  let n_periods := Z.of_nat (length returns) in
  years <- int_truediv n_periods periods_per_year ;;
  e <- float_truediv 1 years ;;
  Ok (power (1 + total_return) e - 1).

End Library.

(** The running product of a list, taken from the left as [np.cumprod]
    does: the product of one factor is that factor. *)
Definition lprod (l : list float) : float :=
  match l with
  | [] => 1
  | x :: t => fold_left mul t x
  end.

End B64.

(** ** Mathematical vocabulary of the statements *)

(** The product of a list of reals. *)
Definition Rprod (l : list R) : R := fold_right Rmult 1 l.

(** The running maximum [M[t] = max (P[0..t])] of a list of prices and the
    drawdown [(P[t] - M[t]) / M[t]] at position [t]. *)
Definition running_max (P : list R) (t : nat) : R :=
  MaxRlist (firstn (S t) P).

Definition drawdown_at (P : list R) (t : nat) : R :=
  (nth t P 0 - running_max P t) / running_max P t.

(** The simple returns [P[j] / P[j-1] - 1], [j >= 1], of a list of prices. *)
Definition simple_returns_of (P : list R) : list R :=
  Pd.map2 (fun a b => a / b - 1) (tl P) P.

(** The sum and the mean of a list of reals, and the sample variance
    (divisor [n - 1]) of a list of [n] reals. *)
Definition Rsum (l : list R) : R := fold_right Rplus 0 l.

Definition Rmean (l : list R) : R := Rsum l / INR (length l).

Definition sample_variance (l : list R) : R :=
  Rsum (List.map (fun x => (Rmean l - x) * (Rmean l - x)) l)
  / INR (length l - 1).

(** * Properties *)

(** ** Text *)

Section Text.
Import Py.

Lemma str_eqb_eq (a b : str) : str_eqb a b = true <-> a = b.
Proof.
  revert b; induction a as [|x a IH]; intros [|y b]; simpl;
    try (split; [discriminate | congruence]); try tauto.
  rewrite andb_true_iff, N.eqb_eq, IH.
  split; [intros [-> ->]; reflexivity | intros H; inversion H; auto].
Qed.

Lemma str_eqb_neq (a b : str) : a <> b -> str_eqb a b = false.
Proof.
  intros H. destruct (str_eqb a b) eqn:E; [|reflexivity].
  apply str_eqb_eq in E. contradiction.
Qed.

End Text.

(** ** Exact arithmetic on finite values *)

Section Arithmetic.
Import F.

Lemma Rsign_pos (x : R) : 0 < x -> Rsign x = Pos.
Proof.
  intros H. unfold Rsign.
  destruct (total_order_T x 0) as [[Hlt|Heq]|Hgt]; [lra | lra | reflexivity].
Qed.

Lemma Rsign_neg (x : R) : x < 0 -> Rsign x = Neg.
Proof.
  intros H. unfold Rsign.
  destruct (total_order_T x 0) as [[Hlt|Heq]|Hgt]; [reflexivity | lra | lra].
Qed.

Lemma Rsign_zero : Rsign 0 = Zero.
Proof.
  unfold Rsign.
  destruct (total_order_T 0 0) as [[Hlt|Heq]|Hgt]; [lra | reflexivity | lra].
Qed.

Lemma fdiv_fin (x y : R) : y <> 0 -> fdiv (Fin x) (Fin y) = Fin (x / y).
Proof.
  intros H. unfold fdiv. destruct (Req_dec_T y 0); [contradiction | reflexivity].
Qed.

Lemma log_fin (x : R) : 0 < x -> log (Fin x) = Fin (ln x).
Proof. intros H. unfold log. rewrite Rsign_pos by assumption. reflexivity. Qed.

End Arithmetic.

(** ** Series, position by position *)

Section Positions.
Import F Pd.

Lemma map2_length {A B C : Type} (f : A -> B -> C) (a : list A) (b : list B) :
  length (map2 f a b) = Nat.min (length a) (length b).
Proof.
  revert b; induction a as [|x a IH]; intros [|y b]; simpl; auto.
Qed.

Lemma map2_nth_error {A B C : Type} (f : A -> B -> C) (a : list A)
  (b : list B) (i : nat) (x : A) (y : B) :
  nth_error a i = Some x -> nth_error b i = Some y ->
  nth_error (map2 f a b) i = Some (f x y).
Proof.
  revert b i; induction a as [|x0 a IH]; intros [|y0 b] [|i]; simpl;
    try discriminate.
  - intros [= ->] [= ->]. reflexivity.
  - apply IH.
Qed.

(** Against a list shifted by one, dropping the last element changes
    nothing: the pairing stops at the shorter list. *)
Lemma map2_removelast {A B C : Type} (f : A -> B -> C) (a : list A)
  (y : B) (b : list B) :
  length a = length b ->
  map2 f a (removelast (y :: b)) = map2 f a (y :: b).
Proof.
  revert y b; induction a as [|x a IH]; intros y [|y' b] Hlen;
    simpl in *; try discriminate; try reflexivity.
  f_equal. apply (IH y' b). congruence.
Qed.

Lemma removelast_cons_length {A : Type} (x : A) (l : list A) :
  length (removelast (x :: l)) = length l.
Proof.
  revert x; induction l as [|y l IH]; intros x; [reflexivity|].
  change (removelast (x :: y :: l)) with (x :: removelast (y :: l)).
  cbn [length]. rewrite IH. reflexivity.
Qed.

Lemma shift1_length (s : Series) : length (shift1 s) = length s.
Proof.
  destruct s as [|x s]; [reflexivity|].
  unfold shift1. cbn [length]. rewrite removelast_cons_length. reflexivity.
Qed.

Lemma div_shift1 (x : float) (s : Series) :
  div (x :: s) (shift1 (x :: s)) = NaN :: map2 fdiv s (x :: s).
Proof.
  unfold div, shift1. cbn [map2].
  replace (fdiv x NaN) with NaN by (destruct x; reflexivity).
  f_equal. apply map2_removelast. reflexivity.
Qed.

Lemma div_shift1_length (s : Series) :
  length (div s (shift1 s)) = length s.
Proof.
  unfold div. rewrite map2_length, shift1_length. apply Nat.min_id.
Qed.

Lemma pct_change_length (s : Series) : length (pct_change s) = length s.
Proof.
  unfold pct_change, sub_scalar. rewrite length_map. apply div_shift1_length.
Qed.

(** The ratio of a price to its predecessor, at every position after the
    first. *)
Lemma div_shift1_nth (P : list R) (i : nat) :
  (0 < i < length P)%nat ->
  nth_error (div (List.map Fin P) (shift1 (List.map Fin P))) i =
  Some (fdiv (Fin (nth i P 0)) (Fin (nth (i - 1) P 0))).
Proof.
  intros [Hpos Hlt]. destruct P as [|p0 P]; [simpl in Hlt; lia|].
  destruct i as [|i]; [lia|].
  cbn [List.map]. rewrite div_shift1. cbn [nth_error].
  replace (S i - 1)%nat with i by lia. cbn [nth].
  simpl in Hlt.
  apply map2_nth_error.
  - rewrite nth_error_map, (nth_error_nth' P 0) by lia. reflexivity.
  - change (Fin p0 :: List.map Fin P) with (List.map Fin (p0 :: P)).
    rewrite nth_error_map, (nth_error_nth' (p0 :: P) 0) by (simpl; lia).
    reflexivity.
Qed.

Lemma Forall_nth_pos (P : list R) (i : nat) :
  Forall (fun p => 0 < p) P -> (i < length P)%nat -> 0 < nth i P 0.
Proof.
  intros HP Hi. rewrite Forall_forall in HP. apply HP. apply nth_In. exact Hi.
Qed.

End Positions.

(** ** Returns of a series of positive prices, in closed form *)

Section PriceReturns.
Import Py F Pd Returns.

Lemma map2_fdiv_fin (a b : list R) :
  Forall (fun y => y <> 0) b ->
  map2 fdiv (List.map Fin a) (List.map Fin b) =
  List.map Fin (map2 Rdiv a b).
Proof.
  intros Hb. revert a; induction Hb as [|y b Hy Hb IH]; intros [|x a];
    try reflexivity.
  cbn [List.map map2]. rewrite fdiv_fin by exact Hy. f_equal. apply IH.
Qed.

Lemma map_map2 {A B C D : Type} (g : C -> D) (f : A -> B -> C)
  (a : list A) (b : list B) :
  List.map g (map2 f a b) = map2 (fun x y => g (f x y)) a b.
Proof.
  revert b; induction a as [|x a IH]; intros [|y b]; simpl; auto.
  f_equal. apply IH.
Qed.

Lemma map2_ext_in2 {A B C : Type} (f g : A -> B -> C) (a : list A)
  (b : list B) (QA : A -> Prop) (QB : B -> Prop) :
  (forall x y, QA x -> QB y -> f x y = g x y) ->
  Forall QA a -> Forall QB b -> map2 f a b = map2 g a b.
Proof.
  intros Hfg Ha. revert b; induction Ha as [|x a Hx Ha IH]; intros b Hb;
    [reflexivity|].
  destruct Hb as [|y b Hy Hb]; [reflexivity|].
  cbn [map2]. rewrite Hfg by assumption. f_equal. apply IH. exact Hb.
Qed.

Lemma pos_nonzero (P : list R) :
  Forall (fun p => 0 < p) P -> Forall (fun p => p <> 0) P.
Proof. apply Forall_impl. intros p Hp. lra. Qed.

(** Simple returns of positive prices: a missing first entry, then the
    relative change of every price against its predecessor. *)
Lemma pct_change_prices (p0 : R) (t : list R) :
  Forall (fun p => 0 < p) (p0 :: t) ->
  pct_change (List.map Fin (p0 :: t)) =
  NaN :: List.map Fin (map2 (fun a b => a / b - 1) t (p0 :: t)).
Proof.
  intros HP. unfold pct_change, sub_scalar. cbn [List.map].
  rewrite div_shift1. cbn [List.map]. f_equal.
  change (Fin p0 :: List.map Fin t) with (List.map Fin (p0 :: t)).
  rewrite map2_fdiv_fin by (apply pos_nonzero; exact HP).
  rewrite List.map_map. cbn [fsub].
  rewrite <- (List.map_map (fun x => x - 1) Fin).
  rewrite map_map2. reflexivity.
Qed.

(** Log returns of positive prices. *)
Lemma log_returns_prices (p0 : R) (t : list R) :
  Forall (fun p => 0 < p) (p0 :: t) ->
  List.map F.log (div (List.map Fin (p0 :: t)) (shift1 (List.map Fin (p0 :: t)))) =
  NaN :: List.map Fin (map2 (fun a b => ln (a / b)) t (p0 :: t)).
Proof.
  intros HP. cbn [List.map]. rewrite div_shift1. cbn [List.map F.log].
  f_equal.
  change (Fin p0 :: List.map Fin t) with (List.map Fin (p0 :: t)).
  rewrite map2_fdiv_fin by (apply pos_nonzero; exact HP).
  rewrite List.map_map, map_map2, map_map2.
  apply map2_ext_in2 with (QA := fun p => 0 < p) (QB := fun p => 0 < p).
  - intros x y Hx Hy. apply log_fin. apply Rdiv_lt_0_compat; assumption.
  - inversion HP; assumption.
  - exact HP.
Qed.

Lemma dropna_fin (l : list R) : dropna (List.map Fin l) = List.map Fin l.
Proof.
  unfold dropna. induction l as [|x l IH]; [reflexivity|].
  cbn [List.map filter isnan negb]. rewrite IH. reflexivity.
Qed.

Lemma map2_shifted_length {A B C : Type} (f : A -> B -> C) (y : B)
  (a : list A) (b : list B) :
  length a = length b -> length (map2 f a (y :: b)) = length a.
Proof. intros H. rewrite map2_length. cbn [length]. lia. Qed.

End PriceReturns.

(** ** Series on binary64, position by position *)

Section Binary64Positions.
Import Py PrimFloat.
#[local] Set Warnings "-inexact-float".
Local Open Scope float_scope.


Lemma b64_fill_id (v : float) (s : list float) :
  forallb (fun x => negb (is_nan x)) s = true -> B64.fill v s = s.
Proof.
  unfold B64.fill. induction s as [|x s IH]; [reflexivity|].
  cbn [forallb List.map]. intros H. apply andb_prop in H. destruct H as [Hx Hs].
  rewrite IH by exact Hs. apply negb_true_iff in Hx. rewrite Hx. reflexivity.
Qed.

Lemma b64_restore_id (s r : list float) :
  forallb (fun x => negb (is_nan x)) s = true -> length r = length s ->
  B64.restore s r = r.
Proof.
  unfold B64.restore. revert r; induction s as [|x s IH]; intros [|y r] H Hlen;
    simpl in Hlen; try discriminate; try reflexivity.
  cbn [forallb] in H. apply andb_prop in H. destruct H as [Hx Hs].
  cbn [Pd.map2]. rewrite IH by (assumption || congruence).
  apply negb_true_iff in Hx. rewrite Hx. reflexivity.
Qed.

Lemma b64_accumulate_from_length (f : float -> float -> float) (acc : float)
  (l : list float) : length (B64.accumulate_from f acc l) = length l.
Proof.
  revert acc; induction l as [|x l IH]; intros acc; simpl; auto.
Qed.

Lemma b64_accumulate_from_nth (f : float -> float -> float)
  (l : list float) (acc : float) (i : nat) :
  (i < length l)%nat ->
  nth_error (B64.accumulate_from f acc l) i =
  Some (fold_left f (firstn (S i) l) acc).
Proof.
  revert acc i; induction l as [|x l IH]; intros acc i Hi;
    [simpl in Hi; lia|].
  destruct i as [|i]; [reflexivity|].
  cbn [B64.accumulate_from nth_error]. cbv zeta.
  rewrite IH by (simpl in Hi; lia). reflexivity.
Qed.

(** On factors none of which is NaN, [cumprod] is the running product from
    the left. *)
Lemma b64_cumprod_nth (s : list float) (i : nat) :
  forallb (fun x => negb (is_nan x)) s = true ->
  (i < length s)%nat ->
  nth_error (B64.cumprod s) i = Some (B64.lprod (firstn (S i) s)).
Proof.
  intros Hs Hi. unfold B64.cumprod, B64.na_accum.
  rewrite b64_fill_id by exact Hs.
  rewrite b64_restore_id;
    [| exact Hs
     | destruct s; [reflexivity|];
       simpl; rewrite b64_accumulate_from_length; reflexivity].
  destruct s as [|x s]; [simpl in Hi; lia|].
  destruct i as [|i]; [reflexivity|].
  cbn [B64.accumulate nth_error firstn B64.lprod].
  apply b64_accumulate_from_nth. simpl in Hi. lia.
Qed.

End Binary64Positions.

(** ** [calculate_returns] *)

Section CalculateReturns.
Import Py F Pd Returns.

Lemma calculate_returns_simple (prices : Series) :
  calculate_returns prices (lit "simple") = Ok (pct_change prices).
Proof. reflexivity. Qed.

Lemma calculate_returns_log (prices : Series) :
  calculate_returns prices (lit "log") =
  Ok (List.map F.log (div prices (shift1 prices))).
Proof. reflexivity. Qed.

(** C1, as the code has it: for both methods the return series is as long
    as the price series.  The first period is not dropped: it stays in the
    result as a missing value (NaN).  Dropping the missing values, as
    [performance_summary] does before it uses the returns, leaves one
    element fewer than there are prices when the prices are positive. *)
Theorem calculate_returns_keeps_length (prices : Series) (method : str) :
  method = lit "simple" \/ method = lit "log" ->
  exists s,
    calculate_returns prices method = Ok s
    /\ length s = length prices
    /\ (prices <> [] -> nth_error s 0 = Some NaN)
    /\ (forall P, prices = List.map Fin P -> Forall (fun p => 0 < p) P ->
        length (dropna s) = (length P - 1)%nat).
Proof.
  intros [-> | ->].
  - exists (pct_change prices). split; [reflexivity|].
    split; [apply pct_change_length|]. split.
    + destruct prices as [|x prices]; [congruence|]. intros _.
      unfold pct_change, sub_scalar. rewrite div_shift1. reflexivity.
    + intros [|p0 t] -> HP; [reflexivity|].
      rewrite pct_change_prices by exact HP.
      change (dropna (NaN :: ?l)) with (dropna l).
      rewrite dropna_fin, length_map, map2_shifted_length by reflexivity.
      cbn [length]. lia.
  - exists (List.map F.log (div prices (shift1 prices))).
    split; [reflexivity|].
    split; [rewrite length_map; apply div_shift1_length|]. split.
    + destruct prices as [|x prices]; [congruence|]. intros _.
      rewrite div_shift1. reflexivity.
    + intros [|p0 t] -> HP; [reflexivity|].
      rewrite log_returns_prices by exact HP.
      change (dropna (NaN :: ?l)) with (dropna l).
      rewrite dropna_fin, length_map, map2_shifted_length by reflexivity.
      cbn [length]. lia.
Qed.

Lemma calculate_returns_keeps_length_witness :
  exists s,
    calculate_returns [Fin 100; Fin 110; Fin 121] (lit "log") = Ok s
    /\ length s = 3%nat
    /\ ([Fin 100; Fin 110; Fin 121] <> [] -> nth_error s 0 = Some NaN)
    /\ (forall P, [Fin 100; Fin 110; Fin 121] = List.map Fin P ->
        Forall (fun p => 0 < p) P -> length (dropna s) = (length P - 1)%nat).
Proof.
  apply (calculate_returns_keeps_length [Fin 100; Fin 110; Fin 121] (lit "log")).
  right. reflexivity.
Defined.

(** C1 as stated fails: three prices give three returns, the first of
    them NaN, under either method. *)
Lemma calculate_returns_length_counterexample :
  let prices := [Fin 100; Fin 110; Fin 121] in
  (exists s, calculate_returns prices (lit "simple") = Ok s
             /\ length s = 3%nat /\ nth_error s 0 = Some NaN
             /\ length s <> (length prices - 1)%nat)
  /\ (exists s, calculate_returns prices (lit "log") = Ok s
                /\ length s = 3%nat /\ nth_error s 0 = Some NaN
                /\ length s <> (length prices - 1)%nat).
Proof.
  cbv zeta. split.
  - exists (pct_change [Fin 100; Fin 110; Fin 121]).
    split; [reflexivity|]. rewrite pct_change_length.
    unfold pct_change, sub_scalar. rewrite div_shift1.
    repeat split; cbn [length]; lia.
  - exists (List.map F.log (div [Fin 100; Fin 110; Fin 121]
                                (shift1 [Fin 100; Fin 110; Fin 121]))).
    split; [reflexivity|]. rewrite length_map, div_shift1_length.
    rewrite div_shift1. repeat split; cbn [length]; lia.
Qed.

(** C3: on positive prices the log return at every position [i > 0] is
    [ln (P[i] / P[i-1])]. *)
Theorem calculate_returns_log_value (P : list R) (i : nat) :
  Forall (fun p => 0 < p) P ->
  (0 < i < length P)%nat ->
  exists s,
    calculate_returns (List.map Fin P) (lit "log") = Ok s
    /\ nth_error s i = Some (Fin (ln (nth i P 0 / nth (i - 1) P 0))).
Proof.
  intros HP Hi. exists (List.map F.log (div (List.map Fin P) (shift1 (List.map Fin P)))).
  split; [reflexivity|].
  rewrite nth_error_map, div_shift1_nth by exact Hi.
  assert (Hprev : 0 < nth (i - 1) P 0) by (apply Forall_nth_pos; [exact HP | lia]).
  assert (Hcur : 0 < nth i P 0) by (apply Forall_nth_pos; [exact HP | lia]).
  rewrite fdiv_fin by lra. cbn [option_map].
  rewrite log_fin by (apply Rdiv_lt_0_compat; assumption).
  reflexivity.
Qed.

Lemma calculate_returns_log_value_witness :
  exists s,
    calculate_returns (List.map Fin [100; 110; 121]) (lit "log") = Ok s
    /\ nth_error s 1 =
       Some (Fin (ln (nth 1 [100; 110; 121] 0 / nth (1 - 1) [100; 110; 121] 0))).
Proof.
  apply (calculate_returns_log_value [100; 110; 121] 1).
  - repeat constructor; lra.
  - simpl; lia.
Defined.

(** C4: any method other than "simple" and "log" raises a [ValueError]
    whose message ends with the method given, and no series is returned. *)
Theorem calculate_returns_unknown_method (prices : Series) (method : str) :
  method <> lit "simple" -> method <> lit "log" ->
  calculate_returns prices method =
    Raise (ValueError (lit "Unknown method: " ++ method))
  /\ forall s, calculate_returns prices method <> Ok s.
Proof.
  intros Hs Hl. unfold calculate_returns.
  rewrite (str_eqb_neq _ _ Hs), (str_eqb_neq _ _ Hl).
  split; [reflexivity | intros s; discriminate].
Qed.

Lemma calculate_returns_unknown_method_witness :
  calculate_returns [Fin 100; Fin 110] (lit "bogus") =
    Raise (ValueError (lit "Unknown method: " ++ lit "bogus"))
  /\ forall s, calculate_returns [Fin 100; Fin 110] (lit "bogus") <> Ok s.
Proof.
  apply (calculate_returns_unknown_method [Fin 100; Fin 110] (lit "bogus"));
    intros H; discriminate H.
Defined.

End CalculateReturns.

(** ** The value of a simple return *)

Section SimpleReturnValue.
Import PrimFloat.
Import Py F Pd Returns.
#[local] Set Warnings "-inexact-float".




End SimpleReturnValue.

(** ** Cumulative operations on series without missing values *)

Section Cumulative.
Import F Pd.

Lemma fill_fin (v : float) (l : list R) :
  fill v (List.map Fin l) = List.map Fin l.
Proof. unfold fill. rewrite List.map_map. reflexivity. Qed.

Lemma restore_fin (l : list R) (r : Series) :
  length r = length l -> restore (List.map Fin l) r = r.
Proof.
  unfold restore. revert r; induction l as [|x l IH]; intros [|y r] Hlen;
    simpl in *; try discriminate; try reflexivity.
  f_equal. apply IH. congruence.
Qed.

Lemma accumulate_from_length (f : float -> float -> float) (acc : float)
  (l : list float) : length (accumulate_from f acc l) = length l.
Proof.
  revert acc; induction l as [|x l IH]; intros acc; simpl; auto.
Qed.

Lemma accumulate_length (f : float -> float -> float) (l : list float) :
  length (accumulate f l) = length l.
Proof.
  destruct l as [|x l]; [reflexivity|].
  simpl. rewrite accumulate_from_length. reflexivity.
Qed.

(** On a series without missing values the cumulative operation is the
    plain accumulation. *)
Lemma na_accum_fin (f : float -> float -> float) (neutral : float)
  (l : list R) :
  na_accum f neutral (List.map Fin l) = accumulate f (List.map Fin l).
Proof.
  unfold na_accum. rewrite fill_fin. apply restore_fin.
  rewrite accumulate_length, length_map. reflexivity.
Qed.

Lemma accumulate_from_fmul_nth (l : list R) (acc : R) (i : nat) :
  (i < length l)%nat ->
  nth_error (accumulate_from fmul (Fin acc) (List.map Fin l)) i =
  Some (Fin (acc * Rprod (firstn (S i) l))).
Proof.
  revert acc i; induction l as [|x l IH]; intros acc i Hi;
    [simpl in Hi; lia|].
  destruct i as [|i].
  - cbn. do 2 f_equal. ring.
  - cbn [List.map accumulate_from nth_error fmul]. cbv zeta.
    rewrite IH by (simpl in Hi; lia).
    do 2 f_equal. change (firstn (S (S i)) (x :: l)) with (x :: firstn (S i) l).
    unfold Rprod. cbn [fold_right]. ring.
Qed.

Lemma cumprod_fin_nth (l : list R) (i : nat) :
  (i < length l)%nat ->
  nth_error (cumprod (List.map Fin l)) i = Some (Fin (Rprod (firstn (S i) l))).
Proof.
  intros Hi. unfold cumprod. rewrite na_accum_fin.
  destruct l as [|x l]; [simpl in Hi; lia|].
  destruct i as [|i].
  - cbn. do 2 f_equal. ring.
  - cbn [List.map accumulate nth_error].
    rewrite accumulate_from_fmul_nth by (simpl in Hi; lia).
    reflexivity.
Qed.

Lemma radd_fin (c : R) (l : list R) :
  radd (Fin c) (List.map Fin l) = List.map Fin (List.map (fun x => c + x) l).
Proof. unfold radd. rewrite !List.map_map. reflexivity. Qed.

Lemma fold_left_fmul_fin (l : list R) (acc : R) :
  fold_left fmul (List.map Fin l) (Fin acc) = Fin (acc * Rprod l).
Proof.
  revert acc; induction l as [|x l IH]; intros acc.
  - cbn. f_equal. ring.
  - cbn [List.map fold_left fmul]. rewrite IH. f_equal.
    unfold Rprod. cbn [fold_right]. ring.
Qed.

Lemma prod_fin (l : list R) : prod (List.map Fin l) = Fin (Rprod l).
Proof.
  unfold prod. rewrite fill_fin, fold_left_fmul_fin. f_equal. ring.
Qed.

End Cumulative.

(** ** [calculate_cumulative_returns] *)

Section CumulativeReturns.
Import F Pd Returns.

Lemma calculate_cumulative_returns_fin_nth (r : list R) (i : nat) :
  (i < length r)%nat ->
  nth_error (calculate_cumulative_returns (List.map Fin r)) i =
  Some (Fin (Rprod (List.map (fun x => 1 + x) (firstn (S i) r)) - 1)).
Proof.
  intros Hi. unfold calculate_cumulative_returns, sub_scalar.
  rewrite radd_fin, nth_error_map.
  rewrite cumprod_fin_nth by (rewrite length_map; exact Hi).
  rewrite firstn_map. reflexivity.
Qed.

End CumulativeReturns.

Section CumulativeReturnsValue.
Import PrimFloat.
Import Py F Pd Returns.
#[local] Set Warnings "-inexact-float".

(** C5, as the code has it: position [i] of the cumulative returns is the
    product of [1 + r[j]] for [j = 0..i], taken from the left, minus 1.
    This is stated on return series of reals in exact arithmetic, and on
    binary64 series none of whose factors [1 + r[j]] is NaN as the value
    the code returns.  On [0.1, -0.1] the code returns
    [0.10000000000000009, -0.0099999999999998979]: the values 0.1 and
    -0.01 up to rounding (within 1e-15), not exactly. *)
Theorem calculate_cumulative_returns_prefix_product :
  (forall (r : list R) (i : nat),
      (i < length r)%nat ->
      nth_error (calculate_cumulative_returns (List.map Fin r)) i =
      Some (Fin (Rprod (List.map (fun x => 1 + x) (firstn (S i) r)) - 1)))
  /\ (forall (r : list PrimFloat.float) (i : nat),
         (i < length r)%nat ->
         forallb (fun x => negb (is_nan x)) (List.map (add one) r) = true ->
         nth_error (B64.calculate_cumulative_returns r) i =
         Some (PrimFloat.sub
                 (B64.lprod (List.map (add one) (firstn (S i) r))) one))
  /\ B64.calculate_cumulative_returns [0.1%float; (-0.1)%float] =
     [0.10000000000000009%float; (-0.0099999999999998979)%float]
  /\ ltb (abs (PrimFloat.sub 0.10000000000000009%float 0.1%float))
         1e-15%float = true
  /\ ltb (abs (PrimFloat.sub (-0.0099999999999998979)%float (-0.01)%float))
         1e-15%float = true.
Proof.
  split; [exact calculate_cumulative_returns_fin_nth|]. split.
  - intros r i Hi Hnan.
    unfold B64.calculate_cumulative_returns, B64.sub_scalar, B64.radd.
    rewrite nth_error_map.
    rewrite b64_cumprod_nth by (assumption || (rewrite length_map; exact Hi)).
    rewrite firstn_map. reflexivity.
  - repeat split; vm_compute; reflexivity.
Qed.

Lemma calculate_cumulative_returns_prefix_product_witness :
  nth_error (calculate_cumulative_returns (List.map Fin [1 / 10; - 1 / 10])) 1 =
    Some (Fin (Rprod (List.map (fun x => 1 + x)
                        (firstn 2 [1 / 10; - 1 / 10])) - 1))
  /\ nth_error (B64.calculate_cumulative_returns
                  [0.1%float; (-0.1)%float]) 1 =
     Some (PrimFloat.sub
             (B64.lprod (List.map (add one)
                           (firstn 2 [0.1%float; (-0.1)%float]))) one).
Proof.
  split.
  - apply (proj1 calculate_cumulative_returns_prefix_product
             [1 / 10; - 1 / 10] 1%nat).
    simpl; lia.
  - apply (proj1 (proj2 calculate_cumulative_returns_prefix_product)
             [0.1%float; (-0.1)%float] 1%nat).
    + simpl; lia.
    + vm_compute; reflexivity.
Defined.

(** C5 as stated fails on its example: the code returns neither 0.1 nor
    -0.01 on [0.1, -0.1]. *)
Lemma calculate_cumulative_returns_example_counterexample :
  B64.calculate_cumulative_returns [0.1%float; (-0.1)%float] =
    [0.10000000000000009%float; (-0.0099999999999998979)%float]
  /\ eqb 0.10000000000000009%float 0.1%float = false
  /\ eqb (-0.0099999999999998979)%float (-0.01)%float = false.
Proof. repeat split; vm_compute; reflexivity. Qed.

End CumulativeReturnsValue.

(** ** [calculate_annualized_return] *)

Section Annualized.
Import Py F Pd Returns.

(** Whatever the values of a non-empty series, the two divisions of the
    annualisation succeed when [periods_per_year] is not zero. *)
Lemma annualized_return_exponent (n : nat) (p : Z) :
  n <> 0%nat -> p <> 0%Z ->
  (years <- int_truediv (Z.of_nat n) p ;; float_truediv 1 years) =
  Ok (1 / (IZR (Z.of_nat n) / IZR p)).
Proof.
  intros Hn Hp. unfold int_truediv.
  destruct (Z.eqb_spec p 0) as [->|_]; [contradiction|].
  cbn [bind]. unfold float_truediv.
  destruct (Req_dec_T (IZR (Z.of_nat n) / IZR p) 0) as [H0|_]; [|reflexivity].
  exfalso.
  assert (IZR (Z.of_nat n) <> 0) by (apply not_0_IZR; lia).
  assert (IZR p <> 0) by (apply not_0_IZR; exact Hp).
  apply (Rmult_eq_compat_r (IZR p)) in H0.
  unfold Rdiv in H0. rewrite Rmult_assoc, Rinv_l, Rmult_1_r, Rmult_0_l in H0
    by assumption.
  contradiction.
Qed.

Lemma calculate_annualized_return_ok (returns : Series) (p : Z) :
  returns <> [] -> p <> 0%Z ->
  calculate_annualized_return returns p =
  Ok (fsub (power (fadd (Fin 1) (fsub (prod (radd (Fin 1) returns)) (Fin 1)))
              (1 / (IZR (Z.of_nat (length returns)) / IZR p)))
        (Fin 1)).
Proof.
  intros Hr Hp. unfold calculate_annualized_return. cbv zeta.
  assert (Hn : length returns <> 0%nat)
    by (destruct returns; [congruence | simpl; lia]).
  pose proof (annualized_return_exponent _ _ Hn Hp) as He.
  destruct (int_truediv (Z.of_nat (length returns)) p) as [years|e];
    cbn [bind] in *; [|discriminate].
  destruct (float_truediv 1 years) as [x|e]; cbn [bind] in *; [|discriminate].
  injection He as ->. reflexivity.
Qed.

Lemma power_pos (x e : R) : 0 < x -> e <> 0 -> power (Fin x) e = Fin (Rpower x e).
Proof.
  intros Hx He. unfold power. rewrite (Rsign_pos x Hx).
  unfold Rsign. destruct (total_order_T e 0) as [[Hlt|Heq]|Hgt];
    [reflexivity | contradiction | reflexivity].
Qed.

End Annualized.

Section AnnualizedValue.
Import PrimFloat.
Import Py F Pd Returns.
#[local] Set Warnings "-inexact-float".

(** C6, as the code has it: the annualised return is
    [(1 + T) ** (1 / (n / p)) - 1], where [T] is the compounded return of
    the whole series and the exponent is the one the code computes,
    [1 / (n / p)]: it is [p / n] in exact arithmetic only.  This is
    stated in exact arithmetic for a non-empty series of [n] reals with
    [1 + T > 0] and [0 < p < 2^63], where the power is the real power; and
    on binary64, for every series and every [p] whose quotient [n / p] is
    not 0.0, as the value the code returns. *)
Theorem calculate_annualized_return_as_computed :
  (forall (r : list R) (p : Z),
      r <> [] -> (0 < p < 2 ^ 63)%Z ->
      let n := length r in
      let T := Rprod (List.map (fun x => 1 + x) r) - 1 in
      0 < 1 + T ->
      calculate_annualized_return (List.map Fin r) p =
        Ok (Fin (Rpower (1 + T) (1 / (INR n / IZR p)) - 1)))
  /\ (forall (libm_pow : PrimFloat.float -> PrimFloat.float -> PrimFloat.float)
        (r : list PrimFloat.float) (p : Z) (years : PrimFloat.float),
         B64.int_truediv (Z.of_nat (length r)) p = Ok years ->
         is_zero years = false ->
         B64.calculate_annualized_return libm_pow r p =
           Ok (PrimFloat.sub
                 (B64.power libm_pow
                    (add one (PrimFloat.sub (B64.prod (B64.radd one r)) one))
                    (PrimFloat.div one years))
                 one)).
Proof.
  split.
  - intros r p Hr Hp n T Hbase.
    assert (Hn : 0 < INR n)
      by (apply lt_0_INR; subst n; destruct r; [congruence | simpl; lia]).
    assert (Hp' : 0 < IZR p) by (apply IZR_lt; lia).
    rewrite calculate_annualized_return_ok;
      [| destruct r; [congruence | discriminate] | lia].
    rewrite radd_fin, prod_fin, length_map. cbn [fsub fadd].
    fold T. fold n. rewrite <- INR_IZR_INZ.
    rewrite power_pos; [reflexivity | exact Hbase |].
    apply Rgt_not_eq. unfold Rdiv. rewrite Rmult_1_l.
    apply Rinv_0_lt_compat. apply Rmult_lt_0_compat; [exact Hn|].
    apply Rinv_0_lt_compat. exact Hp'.
  - intros libm_pow r p years Hy Hz.
    unfold B64.calculate_annualized_return. cbv zeta.
    rewrite Hy. cbn [bind]. unfold B64.float_truediv. rewrite Hz.
    reflexivity.
Qed.

Lemma calculate_annualized_return_as_computed_witness :
  (let r := [1 / 10; - 1 / 10] in
   let T := Rprod (List.map (fun x => 1 + x) r) - 1 in
   calculate_annualized_return (List.map Fin r) 252 =
     Ok (Fin (Rpower (1 + T) (1 / (INR (length r) / IZR 252)) - 1)))
  /\ B64.calculate_annualized_return (fun b _ => b)
       [0.1%float; (-0.1)%float] 252 =
     Ok (PrimFloat.sub
           (B64.power (fun b _ => b)
              (add one
                 (PrimFloat.sub
                    (B64.prod (B64.radd one [0.1%float; (-0.1)%float])) one))
              (PrimFloat.div one (PrimFloat.div 2%float 252%float)))
           one).
Proof.
  split.
  - cbv zeta.
    apply (proj1 calculate_annualized_return_as_computed
             [1 / 10; - 1 / 10] 252%Z ltac:(discriminate) ltac:(lia)).
    unfold Rprod. cbn [List.map fold_right]. lra.
  - apply (proj2 calculate_annualized_return_as_computed (fun b _ => b)
             [0.1%float; (-0.1)%float] 252%Z
             (PrimFloat.div 2%float 252%float)).
    + vm_compute; reflexivity.
    + vm_compute; reflexivity.
Defined.

(** C6 as stated fails.  With one return of -3 and [p = 49] the code's
    exponent is [1 / (1 / 49) = 49.000000000000007], not a whole number,
    so the power of the negative base -2 is NaN, while the exponent
    [p / n = 49] of the claim is a whole number, for which the library's
    power is called.  At [n = 5], [p = 252] the two exponents differ as
    well.  And with [p = 10 ^ 400 > 0] the quotient [n / p] rounds to 0.0
    and the code raises [ZeroDivisionError]. *)
Lemma calculate_annualized_return_exponent_counterexample :
  (forall libm_pow,
      B64.calculate_annualized_return libm_pow [(-3)%float] 49 = Ok nan)
  /\ PrimFloat.div 1%float (PrimFloat.div 1%float 49%float) =
     49.000000000000007%float
  /\ B64.is_integer (PrimFloat.div 1%float (PrimFloat.div 1%float 49%float)) =
     false
  /\ B64.is_integer (PrimFloat.div 49%float 1%float) = true
  /\ (forall libm_pow,
         B64.power libm_pow (-2)%float (PrimFloat.div 49%float 1%float) =
         libm_pow (-2)%float 49%float)
  /\ eqb (PrimFloat.div 1%float (PrimFloat.div 5%float 252%float))
         (PrimFloat.div 252%float 5%float) = false
  /\ (forall libm_pow,
         B64.calculate_annualized_return libm_pow [0.5%float] (10 ^ 400) =
         Raise ZeroDivisionError).
Proof.
  repeat split; try intros libm_pow; vm_compute; reflexivity.
Qed.

End AnnualizedValue.

(** ** [calculate_volatility] and [calculate_sharpe_ratio] *)

Section Sharpe.
Import Py F Pd Returns.

(** A division by zero never gives a finite value. *)
Lemma fdiv_zero (a : float) :
  fdiv a (Fin 0) = NaN \/ fdiv a (Fin 0) = PInf \/ fdiv a (Fin 0) = NInf.
Proof.
  destruct a as [x| | |]; cbn [fdiv fsign].
  - destruct (Req_dec_T 0 0) as [_|H]; [|contradiction].
    destruct (Rsign x); cbn; auto.
  - destruct (Rlt_dec 0 0) as [H|_]; [lra|]. cbn. auto.
  - destruct (Rlt_dec 0 0) as [H|_]; [lra|]. cbn. auto.
  - auto.
Qed.

Lemma count_repeat_fin (c : R) (n : nat) : count (repeat (Fin c) n) = n.
Proof.
  unfold count. induction n as [|n IH]; [reflexivity|].
  cbn [repeat filter isnan negb length]. rewrite IH. reflexivity.
Qed.

Lemma fill_repeat_fin (v : float) (c : R) (n : nat) :
  fill v (repeat (Fin c) n) = repeat (Fin c) n.
Proof.
  unfold fill. induction n as [|n IH]; [reflexivity|].
  cbn [repeat List.map isnan]. rewrite IH. reflexivity.
Qed.

Lemma fold_left_fadd_repeat (c a : R) (n : nat) :
  fold_left fadd (repeat (Fin c) n) (Fin a) = Fin (a + INR n * c).
Proof.
  revert a; induction n as [|n IH]; intros a.
  - cbn. f_equal. ring.
  - cbn [repeat fold_left fadd]. rewrite IH, S_INR. f_equal. ring.
Qed.

Lemma sum_repeat (c : R) (n : nat) : sum (repeat (Fin c) n) = Fin (INR n * c).
Proof.
  unfold sum. rewrite fold_left_fadd_repeat. f_equal. ring.
Qed.

Lemma squares_repeat (avg c : R) (n : nat) :
  map2 (fun o v => if isnan o then Fin 0
                   else fmul (fsub (Fin avg) v) (fsub (Fin avg) v))
       (repeat (Fin c) n) (repeat (Fin c) n) =
  repeat (Fin ((avg - c) * (avg - c))) n.
Proof.
  induction n as [|n IH]; [reflexivity|].
  cbn [repeat map2]. rewrite IH. reflexivity.
Qed.

(** The sample variance of at least two equal values is zero. *)
Lemma var_repeat (c : R) (n : nat) :
  (2 <= n)%nat -> var (repeat (Fin c) n) 1 = Fin 0.
Proof.
  intros Hn. unfold var. cbv zeta. rewrite count_repeat_fin.
  destruct (Nat.leb_spec n 1) as [H|_]; [lia|].
  rewrite fill_repeat_fin, sum_repeat.
  assert (Hn0 : INR n <> 0) by (apply not_0_INR; lia).
  assert (Hn1 : INR (n - 1) <> 0) by (apply not_0_INR; lia).
  rewrite fdiv_fin by exact Hn0.
  rewrite squares_repeat, sum_repeat, fdiv_fin by exact Hn1.
  f_equal. field. split; assumption.
Qed.

Lemma calculate_volatility_repeat (c : R) (n : nat) (p : Z) :
  (2 <= n)%nat -> (0 < p)%Z ->
  calculate_volatility (repeat (Fin c) n) p = Fin 0.
Proof.
  intros Hn Hp. unfold calculate_volatility, std.
  rewrite var_repeat by exact Hn. unfold F.sqrt.
  destruct (Rle_dec 0 0) as [_|H]; [|lra].
  destruct (Rle_dec 0 (IZR p)) as [_|H];
    [|exfalso; apply H; apply IZR_le; lia].
  cbn [fmul]. rewrite sqrt_0. f_equal. ring.
Qed.

(** C7: on a non-empty series whose annualised volatility is zero, the
    Sharpe ratio is the excess return divided by that zero: the call
    returns normally and its value is NaN or an infinity; nothing guards
    the division.  ([periods_per_year] is positive and below [2^63]: a
    zero raises [ZeroDivisionError] in the annualisation, before the ratio
    is formed, and a negative one has no zero volatility.) *)
Theorem calculate_sharpe_ratio_zero_volatility
  (returns : Series) (risk_free_rate : float) (p : Z) :
  returns <> [] -> (0 < p < 2 ^ 63)%Z ->
  calculate_volatility returns p = Fin 0 ->
  exists ann_return v,
    calculate_annualized_return returns p = Ok ann_return
    /\ v = fdiv (fsub ann_return risk_free_rate) (Fin 0)
    /\ calculate_sharpe_ratio returns risk_free_rate p = Ok v
    /\ (v = NaN \/ v = PInf \/ v = NInf).
Proof.
  intros Hr Hp Hvol.
  pose proof (calculate_annualized_return_ok returns p Hr ltac:(lia)) as Hann.
  eexists. eexists. split; [exact Hann|]. split; [reflexivity|]. split.
  - unfold calculate_sharpe_ratio. rewrite Hann. cbn [bind]. cbv zeta.
    rewrite Hvol. reflexivity.
  - apply fdiv_zero.
Qed.

Lemma calculate_sharpe_ratio_zero_volatility_witness :
  exists ann_return v,
    calculate_annualized_return [Fin (1 / 2); Fin (1 / 2)] 252 = Ok ann_return
    /\ v = fdiv (fsub ann_return (Fin (2 / 100))) (Fin 0)
    /\ calculate_sharpe_ratio [Fin (1 / 2); Fin (1 / 2)] (Fin (2 / 100)) 252 = Ok v
    /\ (v = NaN \/ v = PInf \/ v = NInf).
Proof.
  apply (calculate_sharpe_ratio_zero_volatility
           [Fin (1 / 2); Fin (1 / 2)] (Fin (2 / 100)) 252%Z).
  - discriminate.
  - lia.
  - apply (calculate_volatility_repeat (1 / 2) 2 252); lia.
Defined.

End Sharpe.

(** ** [calculate_max_drawdown] *)

Section MaxDrawdown.
Import F Pd Returns.

Lemma fmax_fin (a b : R) : fmax (Fin a) (Fin b) = Fin (Rmax a b).
Proof. unfold fmax, fle, Rmax. destruct (Rle_dec a b); reflexivity. Qed.

Lemma fmin_fin (a b : R) : fmin (Fin a) (Fin b) = Fin (Rmin a b).
Proof. unfold fmin, fle, Rmin. destruct (Rle_dec a b); reflexivity. Qed.

Lemma MaxRlist_cons (x y : R) (l : list R) :
  MaxRlist (x :: y :: l) = Rmax x (MaxRlist (y :: l)).
Proof. reflexivity. Qed.

Lemma MinRlist_cons (x y : R) (l : list R) :
  MinRlist (x :: y :: l) = Rmin x (MinRlist (y :: l)).
Proof. reflexivity. Qed.

Lemma accumulate_from_fmax_nth (l : list R) (acc : R) (i : nat) :
  (i < length l)%nat ->
  nth_error (accumulate_from fmax (Fin acc) (List.map Fin l)) i =
  Some (Fin (Rmax acc (MaxRlist (firstn (S i) l)))).
Proof.
  revert acc i; induction l as [|x l IH]; intros acc i Hi;
    [simpl in Hi; lia|].
  cbn [List.map accumulate_from]. cbv zeta. rewrite fmax_fin.
  destruct i as [|i]; [reflexivity|].
  cbn [nth_error]. simpl in Hi. rewrite IH by lia.
  destruct l as [|y l]; [simpl in Hi; lia|].
  change (firstn (S (S i)) (x :: y :: l)) with (x :: y :: firstn i l).
  change (firstn (S i) (y :: l)) with (y :: firstn i l).
  rewrite MaxRlist_cons, Rmax_assoc. reflexivity.
Qed.

(** The running maximum computed by [cummax] is the maximum of the prefix. *)
Lemma cummax_fin_nth (P : list R) (t : nat) :
  (t < length P)%nat ->
  nth_error (cummax (List.map Fin P)) t = Some (Fin (running_max P t)).
Proof.
  intros Ht. unfold cummax, running_max. rewrite na_accum_fin.
  destruct P as [|x P]; [simpl in Ht; lia|].
  destruct t as [|t]; [reflexivity|].
  cbn [List.map accumulate nth_error]. simpl in Ht.
  rewrite accumulate_from_fmax_nth by lia.
  destruct P as [|y P]; [simpl in Ht; lia|]. reflexivity.
Qed.

Lemma running_max_In (P : list R) (t : nat) :
  (t < length P)%nat -> In (running_max P t) (firstn (S t) P).
Proof.
  intros Ht. apply MaxRlist_P2.
  destruct P as [|x P]; [simpl in Ht; lia|].
  exists x. left. reflexivity.
Qed.

Lemma In_firstn {A : Type} (x : A) (n : nat) (l : list A) :
  In x (firstn n l) -> In x l.
Proof.
  revert l; induction n as [|n IH]; intros [|y l]; simpl; try tauto.
  intros [->|H]; [left; reflexivity | right; apply IH; exact H].
Qed.

Lemma running_max_pos (P : list R) (t : nat) :
  Forall (fun p => 0 < p) P -> (t < length P)%nat -> 0 < running_max P t.
Proof.
  intros HP Ht. rewrite Forall_forall in HP. apply HP.
  apply (In_firstn _ (S t)). apply running_max_In. exact Ht.
Qed.

(** The drawdown series of positive prices, position by position. *)
Lemma drawdown_series_nth (P : list R) (t : nat) :
  Forall (fun p => 0 < p) P -> (t < length P)%nat ->
  nth_error (div (sub (List.map Fin P) (cummax (List.map Fin P)))
                 (cummax (List.map Fin P))) t =
  Some (Fin (drawdown_at P t)).
Proof.
  intros HP Ht. pose proof (running_max_pos P t HP Ht) as HM.
  unfold div, sub.
  rewrite (map2_nth_error fdiv _ _ t
             (fsub (Fin (nth t P 0)) (Fin (running_max P t)))
             (Fin (running_max P t))).
  - cbn [fsub]. rewrite fdiv_fin by lra. reflexivity.
  - apply map2_nth_error.
    + rewrite nth_error_map, (nth_error_nth' P 0) by exact Ht. reflexivity.
    + apply cummax_fin_nth. exact Ht.
  - apply cummax_fin_nth. exact Ht.
Qed.

Lemma cummax_fin_length (P : list R) :
  length (cummax (List.map Fin P)) = length P.
Proof.
  unfold cummax. rewrite na_accum_fin, accumulate_length, length_map.
  reflexivity.
Qed.

Lemma drawdown_series_fin (P : list R) :
  Forall (fun p => 0 < p) P ->
  div (sub (List.map Fin P) (cummax (List.map Fin P)))
      (cummax (List.map Fin P)) =
  List.map Fin (List.map (drawdown_at P) (seq 0 (length P))).
Proof.
  intros HP. apply nth_error_ext. intros t.
  destruct (Nat.lt_ge_cases t (length P)) as [Ht|Ht].
  - rewrite drawdown_series_nth by assumption.
    rewrite !nth_error_map, nth_error_seq.
    destruct (Nat.ltb_spec t (length P)) as [_|H]; [reflexivity | lia].
  - transitivity (@None float); [|symmetry]; apply nth_error_None.
    + unfold div, sub.
      rewrite !map2_length, cummax_fin_length, length_map. lia.
    + rewrite !length_map, length_seq. exact Ht.
Qed.

Lemma MinRlist_Rmin_head (a y : R) (l : list R) :
  MinRlist (Rmin a y :: l) = MinRlist (a :: y :: l).
Proof.
  rewrite MinRlist_cons. destruct l as [|z l]; [reflexivity|].
  rewrite !MinRlist_cons, Rmin_assoc. reflexivity.
Qed.

Lemma fold_left_fmin_fin (l : list R) (a : R) :
  fold_left fmin (List.map Fin l) (Fin a) = Fin (MinRlist (a :: l)).
Proof.
  revert a; induction l as [|y l IH]; intros a; [reflexivity|].
  cbn [List.map fold_left]. rewrite fmin_fin, IH. f_equal.
  apply MinRlist_Rmin_head.
Qed.

(** The minimum of a non-empty series without missing values. *)
Lemma min_fin (l : list R) :
  l <> [] -> Pd.min (List.map Fin l) = Fin (MinRlist l).
Proof.
  intros Hl. destruct l as [|x l]; [congruence|].
  unfold Pd.min, count. rewrite fill_fin.
  change (filter _ (List.map Fin (x :: l))) with (dropna (List.map Fin (x :: l))).
  rewrite dropna_fin. cbn [List.map length Nat.eqb fold_left].
  change (fmin PInf (Fin x)) with (Fin x).
  apply fold_left_fmin_fin.
Qed.

End MaxDrawdown.

Section MaxDrawdownSpec.
Import F Pd Returns.

Lemma calculate_max_drawdown_fin (P : list R) :
  P <> [] -> Forall (fun p => 0 < p) P ->
  calculate_max_drawdown (List.map Fin P) =
  Fin (MinRlist (List.map (drawdown_at P) (seq 0 (length P)))).
Proof.
  intros HP Hpos. unfold calculate_max_drawdown. cbv zeta.
  rewrite drawdown_series_fin by exact Hpos.
  apply min_fin. destruct P as [|x P]; [congruence | discriminate].
Qed.

Lemma nondecreasing_le (P : list R) :
  (forall i, (S i < length P)%nat -> nth i P 0 <= nth (S i) P 0) ->
  forall j t, (j <= t)%nat -> (t < length P)%nat -> nth j P 0 <= nth t P 0.
Proof.
  intros Hadj j t Hjt. induction Hjt as [|t Hjt IH]; intros Ht; [lra|].
  apply Rle_trans with (nth t P 0); [apply IH; lia | apply Hadj; exact Ht].
Qed.

(** On non-decreasing prices the running maximum is the current price. *)
Lemma running_max_nondecreasing (P : list R) (t : nat) :
  (forall i, (S i < length P)%nat -> nth i P 0 <= nth (S i) P 0) ->
  (t < length P)%nat -> running_max P t = nth t P 0.
Proof.
  intros Hadj Ht. apply Rle_antisym.
  - destruct (In_nth _ _ 0 (running_max_In P t Ht)) as [j [Hj Hnth]].
    rewrite length_firstn in Hj. rewrite nth_firstn in Hnth.
    destruct (Nat.ltb_spec j (S t)) as [Hlt|Hge]; [|lia].
    rewrite <- Hnth. apply nondecreasing_le; [exact Hadj | lia | exact Ht].
  - unfold running_max. apply MaxRlist_P1.
    replace (nth t P 0) with (nth t (firstn (S t) P) 0).
    + apply nth_In. rewrite length_firstn. lia.
    + rewrite nth_firstn. destruct (Nat.ltb_spec t (S t)); [reflexivity | lia].
Qed.

Lemma MinRlist_zeros {A : Type} (l : list A) :
  l <> [] -> MinRlist (List.map (fun _ => 0) l) = 0.
Proof.
  intros Hl. induction l as [|a l IH]; [congruence|].
  destruct l as [|b l]; [reflexivity|].
  change (List.map (fun _ : A => 0) (a :: b :: l))
    with (0 :: List.map (fun _ : A => 0) (b :: l)).
  cbn [List.map] in *. rewrite MinRlist_cons, IH by discriminate.
  apply Rmin_left. lra.
Qed.

(** Evaluate maxima and minima of explicit numbers. *)
Ltac eval_Rminmax :=
  repeat match goal with
         | |- context [Rmax ?a ?b] =>
             first [ rewrite (Rmax_left a b) by lra
                   | rewrite (Rmax_right a b) by lra ]
         | |- context [Rmin ?a ?b] =>
             first [ rewrite (Rmin_left a b) by lra
                   | rewrite (Rmin_right a b) by lra ]
         end.

(** C8: on non-empty positive prices the maximum drawdown is the least of
    the drawdowns [(P[t] - M[t]) / M[t]] against the running maximum
    [M[t]]; it is 0 on non-decreasing prices, and -0.2 on
    [100, 80, 100]. *)
Theorem calculate_max_drawdown_spec :
  (forall P : list R,
      P <> [] -> Forall (fun p => 0 < p) P ->
      calculate_max_drawdown (List.map Fin P) =
      Fin (MinRlist (List.map (drawdown_at P) (seq 0 (length P)))))
  /\ (forall P : list R,
         P <> [] -> Forall (fun p => 0 < p) P ->
         (forall i, (S i < length P)%nat -> nth i P 0 <= nth (S i) P 0) ->
         calculate_max_drawdown (List.map Fin P) = Fin 0)
  /\ calculate_max_drawdown [Fin 100; Fin 80; Fin 100] = Fin (- 2 / 10).
Proof.
  split; [exact calculate_max_drawdown_fin|]. split.
  - intros P HP Hpos Hadj. rewrite calculate_max_drawdown_fin by assumption.
    f_equal.
    rewrite (map_ext_in (drawdown_at P) (fun _ => 0)).
    + apply MinRlist_zeros. destruct P; [congruence | discriminate].
    + intros t Ht. apply in_seq in Ht. unfold drawdown_at.
      rewrite running_max_nondecreasing by (assumption || lia).
      unfold Rdiv. rewrite Rminus_diag. apply Rmult_0_l.
  - change [Fin 100; Fin 80; Fin 100] with (List.map Fin [100; 80; 100]).
    rewrite calculate_max_drawdown_fin;
      [| discriminate | repeat constructor; lra].
    f_equal. cbn [length seq List.map]. unfold drawdown_at, running_max.
    cbn [firstn nth MaxRlist MinRlist]. eval_Rminmax. lra.
Qed.

Lemma calculate_max_drawdown_spec_witness :
  calculate_max_drawdown (List.map Fin [100; 110; 121]) =
    Fin (MinRlist (List.map (drawdown_at [100; 110; 121]) (seq 0 3)))
  /\ calculate_max_drawdown (List.map Fin [100; 110; 121]) = Fin 0.
Proof.
  split.
  - apply (proj1 calculate_max_drawdown_spec [100; 110; 121]).
    + discriminate.
    + repeat constructor; lra.
  - apply (proj1 (proj2 calculate_max_drawdown_spec) [100; 110; 121]).
    + discriminate.
    + repeat constructor; lra.
    + intros [|[|i]] Hi; cbn [nth]; try lra. simpl in Hi. lia.
Defined.

End MaxDrawdownSpec.

(** ** Compounding the simple returns of a price series *)

Section RoundTrip.
Import Py F Pd Returns.

(** An identity of real numbers: the growth factors of consecutive prices
    multiply out to the ratio of the last price to the first.  (Binary64
    keeps it only up to rounding.) *)
Lemma growth_factors_telescope (t : list R) (p0 : R) (i : nat) :
  Forall (fun p => 0 < p) (p0 :: t) -> (i < length t)%nat ->
  Rprod (List.map (fun x => 1 + x)
           (firstn (S i) (map2 (fun a b => a / b - 1) t (p0 :: t)))) =
  nth i t 0 / p0.
Proof.
  revert p0 i; induction t as [|a t IH]; intros p0 i HP Hi;
    [simpl in Hi; lia|].
  assert (Hp0 : 0 < p0) by (inversion HP; assumption).
  assert (Ht : Forall (fun p => 0 < p) (a :: t)) by (inversion HP; assumption).
  assert (Ha : 0 < a) by (inversion Ht; assumption).
  cbn [map2 firstn List.map]. unfold Rprod. cbn [fold_right].
  destruct i as [|i].
  - cbn [firstn List.map fold_right nth]. field. lra.
  - fold (Rprod (List.map (fun x => 1 + x)
                   (firstn (S i) (map2 (fun a b => a / b - 1) t (a :: t))))).
    rewrite IH by (assumption || (simpl in Hi; lia)).
    cbn [nth]. field. lra.
Qed.

End RoundTrip.

Section RoundTripValue.
Import PrimFloat.
Import Py F Pd Returns.
#[local] Set Warnings "-inexact-float".

(** C10, as the code has it: on at least two positive prices, the
    cumulative returns of the simple returns, once the missing first
    return is removed, hold at position [i] the compounded simple returns
    [(1 + r_1) * ... * (1 + r_(i+1)) - 1], where [r_j = P[j] / P[j-1] - 1].
    On the prices 100, 110, 121 the code returns
    [0.10000000000000009, 0.21000000000000019]: the total returns
    [P[i+1] / P[0] - 1] up to rounding (within 1e-15), not exactly. *)
Theorem cumulative_simple_returns_compound :
  (forall (P : list R) (i : nat),
      Forall (fun p => 0 < p) P ->
      (2 <= length P)%nat ->
      (i < length P - 1)%nat ->
      exists s,
        calculate_returns (List.map Fin P) (lit "simple") = Ok s
        /\ dropna s = tl s
        /\ dropna s = List.map Fin (simple_returns_of P)
        /\ nth_error (calculate_cumulative_returns (dropna s)) i =
           Some (Fin (Rprod (List.map (fun x => 1 + x)
                               (firstn (S i) (simple_returns_of P))) - 1)))
  /\ B64.calculate_cumulative_returns
       (B64.dropna (B64.pct_change [100%float; 110%float; 121%float])) =
     [0.10000000000000009%float; 0.21000000000000019%float]
  /\ ltb (abs (PrimFloat.sub 0.10000000000000009%float
                 (PrimFloat.sub (PrimFloat.div 110%float 100%float) one)))
         1e-15%float = true
  /\ ltb (abs (PrimFloat.sub 0.21000000000000019%float
                 (PrimFloat.sub (PrimFloat.div 121%float 100%float) one)))
         1e-15%float = true.
Proof.
  split.
  - intros P i HP Hlen Hi. exists (pct_change (List.map Fin P)).
    split; [reflexivity|].
    destruct P as [|p0 t]; [simpl in Hlen; lia|].
    rewrite pct_change_prices by exact HP.
    change (dropna (NaN :: ?l)) with (dropna l).
    rewrite dropna_fin. split; [reflexivity|]. split; [reflexivity|].
    simpl in Hi. unfold simple_returns_of. cbn [tl].
    apply calculate_cumulative_returns_fin_nth.
    rewrite map2_shifted_length by reflexivity. lia.
  - repeat split; vm_compute; reflexivity.
Qed.

Lemma cumulative_simple_returns_compound_witness :
  exists s,
    calculate_returns (List.map Fin [100; 110; 121]) (lit "simple") = Ok s
    /\ dropna s = tl s
    /\ dropna s = List.map Fin (simple_returns_of [100; 110; 121])
    /\ nth_error (calculate_cumulative_returns (dropna s)) 1 =
       Some (Fin (Rprod (List.map (fun x => 1 + x)
                           (firstn 2 (simple_returns_of [100; 110; 121]))) - 1)).
Proof.
  apply (proj1 cumulative_simple_returns_compound [100; 110; 121] 1%nat).
  - repeat constructor; lra.
  - simpl; lia.
  - simpl; lia.
Defined.

(** C10 as stated fails: on the prices 100, 110, 121 the code returns
    0.21000000000000019 at position 1, while [121 / 100 - 1] is
    0.20999999999999996. *)
Lemma cumulative_simple_returns_total_counterexample :
  nth_error
    (B64.calculate_cumulative_returns
       (B64.dropna (B64.pct_change [100%float; 110%float; 121%float]))) 1 =
    Some 0.21000000000000019%float
  /\ PrimFloat.sub (PrimFloat.div 121%float 100%float) one =
     0.20999999999999996%float
  /\ eqb 0.21000000000000019%float
       (PrimFloat.sub (PrimFloat.div 121%float 100%float) one) = false.
Proof. repeat split; vm_compute; reflexivity. Qed.

End RoundTripValue.

(** ** [get_korean_stock_data] *)

Section KoreanTicker.
Import Py Fetcher.

Variable DataFrame : Type.
Variable char_isdigit : codepoint -> bool.

Lemma isdigit_digits (ticker : str) :
  ticker <> [] -> forallb char_isdigit ticker = true ->
  isdigit char_isdigit ticker = true.
Proof.
  intros Hne Hall. destruct ticker as [|c ticker]; [congruence | exact Hall].
Qed.

Lemma isdigit_non_digit (ticker : str) :
  existsb (fun c => negb (char_isdigit c)) ticker = true ->
  isdigit char_isdigit ticker = false.
Proof.
  intros Hex. destruct ticker as [|c ticker]; [reflexivity|].
  unfold isdigit. apply not_true_is_false. intros Hall.
  apply existsb_exists in Hex. destruct Hex as [x [Hin Hx]].
  rewrite forallb_forall in Hall. rewrite (Hall x Hin) in Hx. discriminate.
Qed.

(** C9, as the code has it: a non-empty ticker made of digits only is
    handed to [get_stock_data] with ".KS" appended; a ticker with a
    character that is not a digit, and the empty ticker, are handed over
    unchanged; [start], [end] and [period] are passed on as given. *)
Theorem get_korean_stock_data_forwards :
  (forall (ticker : str) (start end_ : option str) (period : str),
      ticker <> [] -> forallb char_isdigit ticker = true ->
      get_korean_stock_data DataFrame char_isdigit ticker start end_ period =
      get_stock_data DataFrame (Single (ticker ++ lit ".KS")) start end_ period)
  /\ (forall (ticker : str) (start end_ : option str) (period : str),
         existsb (fun c => negb (char_isdigit c)) ticker = true ->
         get_korean_stock_data DataFrame char_isdigit ticker start end_ period =
         get_stock_data DataFrame (Single ticker) start end_ period)
  /\ (forall (start end_ : option str) (period : str),
         get_korean_stock_data DataFrame char_isdigit [] start end_ period =
         get_stock_data DataFrame (Single []) start end_ period).
Proof.
  split; [|split].
  - intros ticker start end_ period Hne Hall. unfold get_korean_stock_data.
    rewrite isdigit_digits by assumption. reflexivity.
  - intros ticker start end_ period Hex. unfold get_korean_stock_data.
    rewrite isdigit_non_digit by assumption. reflexivity.
  - reflexivity.
Qed.

End KoreanTicker.

Section KoreanTickerExamples.
Import Py Fetcher.

Lemma get_korean_stock_data_forwards_witness :
  get_korean_stock_data unit ascii_isdigit (lit "005930") None None (lit "1y") =
    get_stock_data unit (Single (lit "005930.KS")) None None (lit "1y")
  /\ get_korean_stock_data unit ascii_isdigit (lit "005930.KQ")
       (Some (lit "2023-01-01")) (Some (lit "2023-12-31")) (lit "1y") =
     get_stock_data unit (Single (lit "005930.KQ"))
       (Some (lit "2023-01-01")) (Some (lit "2023-12-31")) (lit "1y").
Proof.
  split.
  - apply (proj1 (get_korean_stock_data_forwards unit ascii_isdigit)
             (lit "005930") None None (lit "1y")).
    + discriminate.
    + reflexivity.
  - apply (proj1 (proj2 (get_korean_stock_data_forwards unit ascii_isdigit))
             (lit "005930.KQ")).
    reflexivity.
Defined.

(** C9 as stated fails on the empty ticker: it has no character that is
    not a digit, yet it is handed over unchanged, without ".KS". *)
Lemma get_korean_stock_data_empty_ticker_counterexample :
  forallb ascii_isdigit (lit "") = true
  /\ get_korean_stock_data unit ascii_isdigit (lit "") None None (lit "1y") =
     Download (ByPeriod (Single (lit "")) (lit "1y")) (fun data => Ret data)
  /\ get_korean_stock_data unit ascii_isdigit (lit "") None None (lit "1y") <>
     get_stock_data unit (Single (lit "" ++ lit ".KS")) None None (lit "1y").
Proof.
  split; [reflexivity|]. split; [reflexivity|].
  intros H. discriminate H.
Qed.

End KoreanTickerExamples.

(** * Further properties of the code *)

(** ** Errors of the annualisation and of the Sharpe ratio *)

Section AnnualizedErrors.
Import Py F Pd Returns.

Lemma calculate_annualized_return_empty (p : Z) :
  calculate_annualized_return [] p = Raise ZeroDivisionError.
Proof.
  unfold calculate_annualized_return. cbv zeta. cbn [length Z.of_nat].
  unfold int_truediv. destruct (Z.eqb p 0); [reflexivity|].
  cbn [bind]. unfold float_truediv.
  destruct (Req_dec_T (0 / IZR p) 0) as [_|H]; [reflexivity|].
  exfalso. apply H. unfold Rdiv. apply Rmult_0_l.
Qed.

Lemma calculate_annualized_return_zero_periods (returns : Series) :
  calculate_annualized_return returns 0 = Raise ZeroDivisionError.
Proof. reflexivity. Qed.

(** X1: For a [periods_per_year] in the range of a signed 64-bit word,
    the annualisation raises exactly on an empty series or a zero
    [periods_per_year], and then it is [ZeroDivisionError]; on every
    other input it returns a value. *)
Theorem calculate_annualized_return_raises (returns : Series) (p : Z) :
  (- 2 ^ 63 <= p < 2 ^ 63)%Z ->
  (calculate_annualized_return returns p = Raise ZeroDivisionError
   <-> returns = [] \/ p = 0%Z)
  /\ (forall e, calculate_annualized_return returns p = Raise e ->
                e = ZeroDivisionError)
  /\ ((exists v, calculate_annualized_return returns p = Ok v)
      <-> returns <> [] /\ p <> 0%Z).
Proof.
  intros _. destruct returns as [|x returns].
  - rewrite calculate_annualized_return_empty.
    split; [split; auto|]. split; [intros e [= <-]; reflexivity|].
    split; [intros [v H]; discriminate | intros [H _]; congruence].
  - destruct (Z.eq_dec p 0) as [->|Hp].
    + rewrite calculate_annualized_return_zero_periods.
      split; [split; auto|]. split; [intros e [= <-]; reflexivity|].
      split; [intros [v H]; discriminate | intros [_ H]; congruence].
    + rewrite calculate_annualized_return_ok by (discriminate || exact Hp).
      split; [split; [discriminate | intros [H|H]; [discriminate | contradiction]]|].
      split; [discriminate|].
      split; [intros _; split; [discriminate | exact Hp] | intros _; eexists; reflexivity].
Qed.

Lemma calculate_annualized_return_raises_witness :
  (calculate_annualized_return [Fin (1 / 2)] 0 = Raise ZeroDivisionError
   <-> [Fin (1 / 2)] = [] \/ 0%Z = 0%Z)
  /\ (forall e, calculate_annualized_return [Fin (1 / 2)] 0 = Raise e ->
                e = ZeroDivisionError)
  /\ ((exists v, calculate_annualized_return [Fin (1 / 2)] 0 = Ok v)
      <-> [Fin (1 / 2)] <> [] /\ 0%Z <> 0%Z).
Proof.
  apply (calculate_annualized_return_raises [Fin (1 / 2)] 0). lia.
Defined.

(** X2: For a [periods_per_year] in the range of a signed 64-bit word, the
    Sharpe ratio raises in the same cases as the annualisation and in no
    others: a zero or missing volatility never raises. *)
Theorem calculate_sharpe_ratio_raises (returns : Series) (rf : float) (p : Z) :
  (- 2 ^ 63 <= p < 2 ^ 63)%Z ->
  (calculate_sharpe_ratio returns rf p = Raise ZeroDivisionError
   <-> returns = [] \/ p = 0%Z)
  /\ (forall e, calculate_sharpe_ratio returns rf p = Raise e ->
                e = ZeroDivisionError)
  /\ ((exists v, calculate_sharpe_ratio returns rf p = Ok v)
      <-> returns <> [] /\ p <> 0%Z).
Proof.
  intros _. unfold calculate_sharpe_ratio.
  destruct returns as [|x returns].
  - rewrite calculate_annualized_return_empty. cbn [bind].
    split; [split; auto|]. split; [intros e [= <-]; reflexivity|].
    split; [intros [v H]; discriminate | intros [H _]; congruence].
  - destruct (Z.eq_dec p 0) as [->|Hp].
    + rewrite calculate_annualized_return_zero_periods. cbn [bind].
      split; [split; auto|]. split; [intros e [= <-]; reflexivity|].
      split; [intros [v H]; discriminate | intros [_ H]; congruence].
    + rewrite calculate_annualized_return_ok by (discriminate || exact Hp).
      cbn [bind]. cbv zeta.
      split; [split; [discriminate | intros [H|H]; [discriminate | contradiction]]|].
      split; [discriminate|].
      split; [intros _; split; [discriminate | exact Hp] | intros _; eexists; reflexivity].
Qed.

Lemma calculate_sharpe_ratio_raises_witness :
  (calculate_sharpe_ratio [] (Fin (2 / 100)) 252 = Raise ZeroDivisionError
   <-> @nil float = [] \/ 252%Z = 0%Z)
  /\ (forall e, calculate_sharpe_ratio [] (Fin (2 / 100)) 252 = Raise e ->
                e = ZeroDivisionError)
  /\ ((exists v, calculate_sharpe_ratio [] (Fin (2 / 100)) 252 = Ok v)
      <-> @nil float <> [] /\ 252%Z <> 0%Z).
Proof.
  apply (calculate_sharpe_ratio_raises [] (Fin (2 / 100)) 252). lia.
Defined.

Lemma fmul_nan_l (a : float) : fmul NaN a = NaN.
Proof. reflexivity. Qed.

Lemma fmul_nan_r (a : float) : fmul a NaN = NaN.
Proof. destruct a; reflexivity. Qed.

Lemma fdiv_nan_r (a : float) : fdiv a NaN = NaN.
Proof. destruct a; reflexivity. Qed.

Lemma volatility_few_observations (returns : Series) (p : Z) :
  (count returns <= 1)%nat -> calculate_volatility returns p = NaN.
Proof.
  intros Hc. unfold calculate_volatility, std, var. cbv zeta.
  destruct (Nat.leb_spec (count returns) 1) as [_|H]; [reflexivity | lia].
Qed.

Lemma volatility_negative_periods (returns : Series) (p : Z) :
  (p < 0)%Z -> calculate_volatility returns p = NaN.
Proof.
  intros Hp. unfold calculate_volatility. unfold F.sqrt.
  destruct (Rle_dec 0 (IZR p)) as [H|_].
  - exfalso. apply (IZR_lt p 0) in Hp. lra.
  - apply fmul_nan_r.
Qed.

(** X3: For a [periods_per_year] in the range of a signed 64-bit word:
    with fewer than two observations that are not missing there is no
    sample standard deviation and the volatility is NaN; it is also NaN
    for a negative [periods_per_year]. *)
Theorem calculate_volatility_undefined (returns : Series) (p : Z) :
  (- 2 ^ 63 <= p < 2 ^ 63)%Z ->
  (count returns <= 1)%nat \/ (p < 0)%Z ->
  calculate_volatility returns p = NaN.
Proof.
  intros _ [Hc|Hp];
    [apply volatility_few_observations | apply volatility_negative_periods];
    assumption.
Qed.

Lemma calculate_volatility_undefined_witness :
  calculate_volatility [Fin (1 / 100)] 252 = NaN.
Proof.
  apply (calculate_volatility_undefined [Fin (1 / 100)] 252).
  - lia.
  - left. unfold count. cbn. lia.
Defined.

(** X4: On a non-empty series with fewer than two observations that are
    not missing, and a non-zero [periods_per_year] in the range of a
    signed 64-bit word, the Sharpe ratio is NaN (no error). *)
Theorem calculate_sharpe_ratio_single_observation
  (returns : Series) (rf : float) (p : Z) :
  returns <> [] -> p <> 0%Z -> (- 2 ^ 63 <= p < 2 ^ 63)%Z ->
  (count returns <= 1)%nat ->
  calculate_sharpe_ratio returns rf p = Ok NaN.
Proof.
  intros Hr Hp _ Hc. unfold calculate_sharpe_ratio.
  rewrite calculate_annualized_return_ok by assumption. cbn [bind]. cbv zeta.
  rewrite volatility_few_observations by exact Hc.
  rewrite fdiv_nan_r. reflexivity.
Qed.

Lemma calculate_sharpe_ratio_single_observation_witness :
  calculate_sharpe_ratio [NaN; Fin (1 / 100)] (Fin (2 / 100)) 252 = Ok NaN.
Proof.
  apply (calculate_sharpe_ratio_single_observation
           [NaN; Fin (1 / 100)] (Fin (2 / 100)) 252).
  - discriminate.
  - lia.
  - lia.
  - unfold count. cbn. lia.
Defined.

End AnnualizedErrors.

(** ** [calculate_volatility] in closed form *)

Section Volatility.
Import F Pd Returns.

Lemma count_fin (l : list R) : count (List.map Fin l) = length l.
Proof.
  unfold count.
  change (filter _ (List.map Fin l)) with (dropna (List.map Fin l)).
  rewrite dropna_fin. apply length_map.
Qed.

Lemma fold_left_fadd_fin (l : list R) (a : R) :
  fold_left fadd (List.map Fin l) (Fin a) = Fin (a + Rsum l).
Proof.
  revert a; induction l as [|x l IH]; intros a.
  - cbn. f_equal. ring.
  - cbn [List.map fold_left fadd]. rewrite IH. f_equal.
    unfold Rsum. cbn [fold_right]. ring.
Qed.

Lemma sum_fin (l : list R) : sum (List.map Fin l) = Fin (Rsum l).
Proof.
  unfold sum. rewrite fold_left_fadd_fin. f_equal. ring.
Qed.

Lemma squares_fin (avg : R) (l : list R) :
  map2 (fun o v => if isnan o then Fin 0
                   else fmul (fsub (Fin avg) v) (fsub (Fin avg) v))
       (List.map Fin l) (List.map Fin l) =
  List.map Fin (List.map (fun x => (avg - x) * (avg - x)) l).
Proof.
  induction l as [|x l IH]; [reflexivity|].
  cbn [List.map map2]. rewrite IH. reflexivity.
Qed.

Lemma Rsum_squares_nonneg (m : R) (l : list R) :
  0 <= Rsum (List.map (fun x => (m - x) * (m - x)) l).
Proof.
  induction l as [|x l IH]; unfold Rsum in *; cbn [List.map fold_right].
  - lra.
  - pose proof (Rle_0_sqr (m - x)) as H. unfold Rsqr in H. lra.
Qed.

Lemma sample_variance_nonneg (l : list R) :
  (2 <= length l)%nat -> 0 <= sample_variance l.
Proof.
  intros Hn. unfold sample_variance.
  apply Rmult_le_pos; [apply Rsum_squares_nonneg|].
  apply Rlt_le, Rinv_0_lt_compat, lt_0_INR. lia.
Qed.

Lemma var_fin (l : list R) :
  (2 <= length l)%nat -> var (List.map Fin l) 1 = Fin (sample_variance l).
Proof.
  intros Hn. unfold var. cbv zeta. rewrite count_fin.
  destruct (Nat.leb_spec (length l) 1) as [H|_]; [lia|].
  rewrite fill_fin, sum_fin.
  rewrite fdiv_fin by (apply not_0_INR; lia).
  rewrite squares_fin, sum_fin.
  rewrite fdiv_fin by (apply not_0_INR; lia).
  reflexivity.
Qed.

Lemma calculate_volatility_fin (l : list R) (p : Z) :
  (2 <= length l)%nat -> (0 <= p)%Z ->
  calculate_volatility (List.map Fin l) p =
  Fin (R_sqrt.sqrt (sample_variance l) * R_sqrt.sqrt (IZR p)).
Proof.
  intros Hn Hp. unfold calculate_volatility, std.
  rewrite var_fin by exact Hn. unfold F.sqrt.
  destruct (Rle_dec 0 (sample_variance l)) as [_|H];
    [|exfalso; apply H; apply sample_variance_nonneg; exact Hn].
  destruct (Rle_dec 0 (IZR p)) as [_|H];
    [|exfalso; apply H; apply IZR_le; exact Hp].
  reflexivity.
Qed.

(** X5: On two or more returns (reals) and a [periods_per_year] from 0 to
    below [2^63], the volatility is the sample standard deviation (divisor
    [n - 1]) times the square root of [periods_per_year]; it is not
    negative. *)
Theorem calculate_volatility_formula (l : list R) (p : Z) :
  (2 <= length l)%nat -> (0 <= p < 2 ^ 63)%Z ->
  calculate_volatility (List.map Fin l) p =
    Fin (R_sqrt.sqrt (sample_variance l) * R_sqrt.sqrt (IZR p))
  /\ 0 <= R_sqrt.sqrt (sample_variance l) * R_sqrt.sqrt (IZR p).
Proof.
  intros Hn Hp. split; [apply calculate_volatility_fin; [assumption | lia]|].
  apply Rmult_le_pos; apply sqrt_pos.
Qed.

Lemma calculate_volatility_formula_witness :
  calculate_volatility (List.map Fin [1 / 100; 3 / 100]) 252 =
    Fin (R_sqrt.sqrt (sample_variance [1 / 100; 3 / 100]) * R_sqrt.sqrt (IZR 252))
  /\ 0 <= R_sqrt.sqrt (sample_variance [1 / 100; 3 / 100]) * R_sqrt.sqrt (IZR 252).
Proof.
  apply (calculate_volatility_formula [1 / 100; 3 / 100] 252).
  - simpl; lia.
  - lia.
Defined.

End Volatility.

(** ** Missing values in [calculate_cumulative_returns] *)

Section CumulativeMissing.
Import Py F Pd Returns.

Lemma restore_length (orig r : Series) :
  length r = length orig -> length (restore orig r) = length orig.
Proof.
  intros H. unfold restore. rewrite map2_length, H. apply Nat.min_id.
Qed.

Lemma restore_radd (c : R) (r X : Series) :
  restore (radd (Fin c) r) X = restore r X.
Proof.
  unfold restore, radd. revert X; induction r as [|x r IH]; intros [|y X];
    try reflexivity.
  cbn [List.map map2]. rewrite IH. f_equal. destruct x; reflexivity.
Qed.

Lemma sub_scalar_restore (r X : Series) (c : float) :
  sub_scalar (restore r X) c = restore r (sub_scalar X c).
Proof.
  unfold sub_scalar, restore. revert X; induction r as [|x r IH];
    intros [|y X]; try reflexivity.
  cbn [List.map map2]. rewrite IH. f_equal. destruct x; reflexivity.
Qed.

Lemma restore_fill (v : float) (r X : Series) :
  v <> NaN -> restore r (restore (fill v r) X) = restore r X.
Proof.
  intros Hv. unfold restore, fill. revert X; induction r as [|x r IH];
    intros [|y X]; try reflexivity.
  cbn [List.map map2]. rewrite IH. f_equal.
  destruct x; try reflexivity.
Qed.

(** Adding 1 to a series whose missing returns were set to zero, or setting
    to 1 the missing entries of one plus the series: the same factors. *)
Lemma fill_radd_one (r : Series) :
  fill (Fin 1) (radd (Fin 1) (fill (Fin 0) r)) = fill (Fin 1) (radd (Fin 1) r).
Proof.
  unfold fill, radd. rewrite !List.map_map. apply map_ext. intros x.
  destruct x as [a| | |]; try reflexivity.
  cbn. f_equal. ring.
Qed.

Lemma cumprod_length (s : Series) : length (cumprod s) = length s.
Proof.
  unfold cumprod, na_accum. apply restore_length.
  unfold fill. rewrite accumulate_length, length_map. reflexivity.
Qed.

(** X7: Missing returns are compounded as returns of zero and stay missing in
    the result, which has as many entries as the series given. *)
Theorem calculate_cumulative_returns_missing (r : Series) :
  length (calculate_cumulative_returns r) = length r
  /\ calculate_cumulative_returns r =
     restore r (calculate_cumulative_returns (fill (Fin 0) r))
  /\ (forall i, nth_error r i = Some NaN ->
                nth_error (calculate_cumulative_returns r) i = Some NaN).
Proof.
  assert (Hlen : length (calculate_cumulative_returns r) = length r).
  { unfold calculate_cumulative_returns, sub_scalar, radd.
    rewrite length_map, cumprod_length, length_map. reflexivity. }
  assert (Heq : calculate_cumulative_returns r =
                restore r (calculate_cumulative_returns (fill (Fin 0) r))).
  { unfold calculate_cumulative_returns, cumprod, na_accum.
    rewrite fill_radd_one, !restore_radd, !sub_scalar_restore.
    rewrite restore_fill by discriminate. reflexivity. }
  split; [exact Hlen|]. split; [exact Heq|].
  intros i Hi. rewrite Heq. unfold restore.
  assert (Hi' : (i < length r)%nat)
    by (apply nth_error_Some; rewrite Hi; discriminate).
  destruct (nth_error (calculate_cumulative_returns (fill (Fin 0) r)) i)
    as [y|] eqn:Hy.
  - rewrite (map2_nth_error _ _ _ i NaN y Hi Hy). reflexivity.
  - apply nth_error_None in Hy.
    unfold calculate_cumulative_returns, sub_scalar, radd, fill in Hy.
    rewrite length_map, cumprod_length, !length_map in Hy. lia.
Qed.

Lemma calculate_cumulative_returns_missing_witness :
  nth_error (calculate_cumulative_returns [Fin (1 / 10); NaN; Fin (1 / 10)]) 1 =
  Some NaN.
Proof.
  apply (proj2 (proj2 (calculate_cumulative_returns_missing
                         [Fin (1 / 10); NaN; Fin (1 / 10)])) 1%nat).
  reflexivity.
Defined.

End CumulativeMissing.

(** ** Compounding the returns as [calculate_returns] gives them *)

Section ReturnsRelations.
Import Py F Pd Returns.

Lemma fmul_one_l (y : float) : fmul (Fin 1) y = y.
Proof.
  destruct y as [x| | |]; cbn [fmul fsign]; try reflexivity.
  - f_equal. ring.
  - rewrite (Rsign_pos 1) by lra. reflexivity.
  - rewrite (Rsign_pos 1) by lra. reflexivity.
Qed.

Lemma accumulate_from_one (l : list float) :
  accumulate_from fmul (Fin 1) l = accumulate fmul l.
Proof.
  destruct l as [|y l]; [reflexivity|].
  cbn [accumulate_from accumulate]. cbv zeta. rewrite fmul_one_l. reflexivity.
Qed.

(** A missing first return is passed over: the compounding starts at the
    next entry. *)
Lemma cumulative_returns_leading_nan (s : Series) :
  calculate_cumulative_returns (NaN :: s) =
  NaN :: calculate_cumulative_returns s.
Proof.
  unfold calculate_cumulative_returns, cumprod, na_accum, sub_scalar, radd,
    fill, restore.
  cbn [List.map fadd isnan accumulate map2 fsub].
  rewrite accumulate_from_one. reflexivity.
Qed.

(** X8: The missing first return need not be dropped before compounding.
    On positive prices the cumulative returns of the simple returns as
    [calculate_returns] gives them are a missing first entry followed by
    the cumulative returns of the returns with that entry dropped. *)
Theorem cumulative_of_raw_simple_returns (P : list R) :
  Forall (fun p => 0 < p) P -> P <> [] ->
  exists s,
    calculate_returns (List.map Fin P) (lit "simple") = Ok s
    /\ calculate_cumulative_returns s =
       NaN :: calculate_cumulative_returns (dropna s).
Proof.
  intros HP Hne. exists (pct_change (List.map Fin P)).
  split; [reflexivity|].
  destruct P as [|p0 t]; [congruence|].
  rewrite pct_change_prices by exact HP.
  change (dropna (NaN :: ?l)) with (dropna l). rewrite dropna_fin.
  apply cumulative_returns_leading_nan.
Qed.

Lemma cumulative_of_raw_simple_returns_witness :
  exists s,
    calculate_returns (List.map Fin [100; 110; 121]) (lit "simple") = Ok s
    /\ calculate_cumulative_returns s =
       NaN :: calculate_cumulative_returns (dropna s).
Proof.
  apply (cumulative_of_raw_simple_returns [100; 110; 121]).
  - repeat constructor; lra.
  - discriminate.
Defined.

End ReturnsRelations.

(** ** Range and edge cases of [calculate_max_drawdown] *)

Section MaxDrawdownRange.
Import F Pd Returns.

Lemma MinRlist_In (l : list R) : l <> [] -> In (MinRlist l) l.
Proof.
  induction l as [|a l IH]; [congruence|]. intros _.
  destruct l as [|b l]; [left; reflexivity|].
  rewrite MinRlist_cons. unfold Rmin.
  destruct (Rle_dec a (MinRlist (b :: l))); [left; reflexivity|].
  right. apply IH. discriminate.
Qed.

Lemma running_max_ge (P : list R) (j t : nat) :
  (j <= t)%nat -> (t < length P)%nat -> nth j P 0 <= running_max P t.
Proof.
  intros Hjt Ht. unfold running_max. apply MaxRlist_P1.
  replace (nth j P 0) with (nth j (firstn (S t) P) 0).
  - apply nth_In. rewrite length_firstn. lia.
  - rewrite nth_firstn. destruct (Nat.ltb_spec j (S t)); [reflexivity | lia].
Qed.

Lemma running_max_first (P : list R) :
  P <> [] -> running_max P 0 = nth 0 P 0.
Proof. destruct P as [|x P]; [congruence | reflexivity]. Qed.

Lemma drawdown_at_range (P : list R) (t : nat) :
  Forall (fun p => 0 < p) P -> (t < length P)%nat ->
  -1 < drawdown_at P t <= 0.
Proof.
  intros HP Ht. unfold drawdown_at.
  pose proof (running_max_pos P t HP Ht) as HM.
  pose proof (running_max_ge P t t (Nat.le_refl t) Ht) as Hge.
  pose proof (Forall_nth_pos P t HP Ht) as Hx.
  assert (HiM : 0 < / running_max P t) by (apply Rinv_0_lt_compat; exact HM).
  split.
  - replace (-1) with ((0 - running_max P t) / running_max P t)
      by (field; lra).
    unfold Rdiv. apply Rmult_lt_compat_r; [exact HiM | lra].
  - unfold Rdiv.
    apply Rle_trans with (0 * / running_max P t);
      [apply Rmult_le_compat_r; lra | lra].
Qed.

Lemma In_drawdowns (P : list R) (d : R) :
  In d (List.map (drawdown_at P) (seq 0 (length P))) ->
  exists t, (t < length P)%nat /\ d = drawdown_at P t.
Proof.
  intros H. apply in_map_iff in H. destruct H as [t [Hd Ht]].
  apply in_seq in Ht. exists t. split; [lia | congruence].
Qed.

Lemma drawdowns_In (P : list R) (t : nat) :
  (t < length P)%nat ->
  In (drawdown_at P t) (List.map (drawdown_at P) (seq 0 (length P))).
Proof.
  intros Ht. apply in_map. apply in_seq. lia.
Qed.

(** X12: On non-empty positive prices the maximum drawdown is a number
    from -1 to 0, both included. *)
Theorem calculate_max_drawdown_range (P : list R) :
  P <> [] -> Forall (fun p => 0 < p) P ->
  exists d, calculate_max_drawdown (List.map Fin P) = Fin d /\ -1 <= d <= 0.
Proof.
  intros Hne HP. eexists. split; [apply calculate_max_drawdown_fin; assumption|].
  set (dds := List.map (drawdown_at P) (seq 0 (length P))).
  assert (Hlen : (0 < length P)%nat) by (destruct P; [congruence | simpl; lia]).
  split.
  - assert (Hin : In (MinRlist dds) dds).
    { apply MinRlist_In. subst dds. destruct P; [congruence | discriminate]. }
    apply In_drawdowns in Hin. destruct Hin as [t [Ht ->]].
    apply Rlt_le. apply drawdown_at_range; assumption.
  - apply Rle_trans with (drawdown_at P 0).
    + apply MinRlist_P1. apply drawdowns_In. exact Hlen.
    + apply drawdown_at_range; assumption.
Qed.

Lemma calculate_max_drawdown_range_witness :
  exists d, calculate_max_drawdown (List.map Fin [100; 80; 100]) = Fin d
            /\ -1 <= d <= 0.
Proof.
  apply (calculate_max_drawdown_range [100; 80; 100]).
  - discriminate.
  - repeat constructor; lra.
Defined.

(** X13: On non-empty positive prices the maximum drawdown is 0 exactly when
    no price is below its predecessor. *)
Theorem calculate_max_drawdown_zero_iff (P : list R) :
  P <> [] -> Forall (fun p => 0 < p) P ->
  (calculate_max_drawdown (List.map Fin P) = Fin 0
   <-> forall i, (S i < length P)%nat -> nth i P 0 <= nth (S i) P 0).
Proof.
  intros Hne HP. rewrite calculate_max_drawdown_fin by assumption. split.
  - intros [= Hmin] i Hi.
    assert (Hdd : 0 <= drawdown_at P (S i)).
    { rewrite <- Hmin. apply MinRlist_P1. apply drawdowns_In. exact Hi. }
    pose proof (running_max_pos P (S i) HP Hi) as HM.
    pose proof (running_max_ge P i (S i) (Nat.le_succ_diag_r i) Hi) as Hge.
    unfold drawdown_at in Hdd.
    assert (Hnum : 0 <= nth (S i) P 0 - running_max P (S i)).
    { replace (nth (S i) P 0 - running_max P (S i))
        with ((nth (S i) P 0 - running_max P (S i)) / running_max P (S i)
              * running_max P (S i)) by (field; lra).
      apply Rmult_le_pos; lra. }
    lra.
  - intros Hadj. f_equal.
    rewrite (map_ext_in (drawdown_at P) (fun _ => 0)).
    + apply MinRlist_zeros. destruct P; [congruence | discriminate].
    + intros t Ht. apply in_seq in Ht. unfold drawdown_at.
      rewrite running_max_nondecreasing by (assumption || lia).
      unfold Rdiv. rewrite Rminus_diag. apply Rmult_0_l.
Qed.

Lemma calculate_max_drawdown_zero_iff_witness :
  calculate_max_drawdown (List.map Fin [100; 80; 100]) = Fin 0
  <-> forall i, (S i < length [100; 80; 100])%nat ->
                nth i [100; 80; 100] 0 <= nth (S i) [100; 80; 100] 0.
Proof.
  apply (calculate_max_drawdown_zero_iff [100; 80; 100]).
  - discriminate.
  - repeat constructor; lra.
Defined.

Lemma count_all_nan (s : Series) :
  Forall (fun x => x = NaN) s -> count s = 0%nat.
Proof.
  intros H. unfold count. induction H as [|x s -> H IH]; [reflexivity|].
  cbn [filter isnan negb]. exact IH.
Qed.

Lemma map2_all_nan (f : float -> float -> float) (a b : Series) :
  (forall y, f NaN y = NaN) -> Forall (fun x => x = NaN) a ->
  Forall (fun x => x = NaN) (map2 f a b).
Proof.
  intros Hf Ha. revert b; induction Ha as [|x a -> Ha IH]; intros [|y b];
    cbn [map2]; constructor; [apply Hf | apply IH].
Qed.

(** X14: On a price series with no value at all (empty, or every entry
    missing) the maximum drawdown is NaN; nothing is raised. *)
Theorem calculate_max_drawdown_no_prices (prices : Series) :
  Forall (fun x => x = NaN) prices -> calculate_max_drawdown prices = NaN.
Proof.
  intros H. unfold calculate_max_drawdown, Pd.min. cbv zeta.
  rewrite count_all_nan; [reflexivity|].
  unfold div, sub.
  apply map2_all_nan; [reflexivity|].
  apply map2_all_nan; [reflexivity | exact H].
Qed.

Lemma calculate_max_drawdown_no_prices_witness :
  calculate_max_drawdown [] = NaN /\ calculate_max_drawdown [NaN; NaN] = NaN.
Proof.
  split.
  - apply (calculate_max_drawdown_no_prices []). constructor.
  - apply (calculate_max_drawdown_no_prices [NaN; NaN]).
    repeat constructor.
Defined.

End MaxDrawdownRange.

(** ** [performance_summary] *)

Section SummaryProperties.
Import Py F Pd Returns Summary.

Variable format_2f : float -> str.

Lemma last_fin (l : list R) :
  l <> [] -> last (List.map Fin l) NaN = Fin (last l 0).
Proof.
  induction l as [|x l IH]; [congruence|]. intros _.
  destruct l as [|y l]; [reflexivity|].
  change (last (List.map Fin (x :: y :: l)) NaN)
    with (last (List.map Fin (y :: l)) NaN).
  change (last (x :: y :: l) 0) with (last (y :: l) 0).
  apply IH. discriminate.
Qed.

(** X15: The report needs two prices: on an empty series [prices.iloc] raises
    [IndexError], and on a single price, whatever it is, the annualisation
    of the empty return series raises [ZeroDivisionError]. *)
Theorem performance_summary_too_short (rf : float) :
  performance_summary format_2f [] rf = Summary.Raise IndexError
  /\ forall x : float,
       performance_summary format_2f [x] rf =
       Summary.Raise (Propagated ZeroDivisionError).
Proof.
  split; [reflexivity|]. intros x.
  unfold performance_summary, default_method.
  rewrite calculate_returns_simple. cbn [lift Summary.bind]. cbv zeta.
  unfold pct_change, sub_scalar. rewrite div_shift1.
  cbn [map2 List.map fsub dropna filter isnan negb iloc_last iloc_first
       Summary.bind].
  rewrite calculate_annualized_return_empty. reflexivity.
Qed.

(** X16: On two or more positive prices the report is produced: five
    entries, with the keys in the order of the source, the first of them
    rendering [(P_last / P_first - 1) * 100] followed by a per cent
    sign. *)
Theorem performance_summary_report (P : list R) (rf : float) :
  Forall (fun p => 0 < p) P -> (2 <= length P)%nat ->
  exists ann_s vol_s sharpe_s mdd_s,
    performance_summary format_2f (List.map Fin P) rf =
    Return [ (key_total_return,
              percent format_2f (Fin (last P 0 / nth 0 P 0 - 1)));
             (key_annualized_return, ann_s);
             (key_volatility, vol_s);
             (key_sharpe, sharpe_s);
             (key_max_drawdown, mdd_s) ].
Proof.
  intros HP Hlen.
  destruct P as [|p0 t]; [simpl in Hlen; lia|].
  assert (Ht : t <> []) by (destruct t; [simpl in Hlen; lia | discriminate]).
  assert (Hp0 : 0 < p0) by (inversion HP; assumption).
  set (rs := map2 (fun a b => a / b - 1) t (p0 :: t)).
  assert (Hrs : List.map Fin rs <> [])
    by (destruct rs eqn:E; [|discriminate];
        assert (Hl : length rs = length t)
          by (apply map2_shifted_length; reflexivity);
        rewrite E in Hl; destruct t; [congruence | discriminate]).
  assert (Hdrop : dropna (pct_change (List.map Fin (p0 :: t))) = List.map Fin rs).
  { rewrite pct_change_prices by exact HP.
    change (dropna (NaN :: ?l)) with (dropna l). apply dropna_fin. }
  pose proof (calculate_annualized_return_ok (List.map Fin rs) 252 Hrs
                ltac:(discriminate)) as Hann.
  do 4 eexists.
  unfold performance_summary, default_method, default_periods_per_year.
  rewrite calculate_returns_simple. cbn [lift Summary.bind]. cbv zeta.
  rewrite Hdrop.
  unfold iloc_last, iloc_first. cbn [List.map Summary.bind].
  change (Fin p0 :: List.map Fin t) with (List.map Fin (p0 :: t)).
  rewrite last_fin by discriminate.
  rewrite fdiv_fin by lra. cbn [fsub].
  rewrite Hann. cbn [lift Summary.bind].
  unfold calculate_sharpe_ratio. rewrite Hann. cbn [Py.bind lift Summary.bind].
  reflexivity.
Qed.

End SummaryProperties.

Section SummaryExamples.
Import Py F Pd Returns Summary.

Lemma performance_summary_report_witness :
  exists ann_s vol_s sharpe_s mdd_s,
    performance_summary (fun _ => lit "x") (List.map Fin [100; 110; 121])
      (Fin (2 / 100)) =
    Return [ (key_total_return,
              percent (fun _ => lit "x")
                (Fin (last [100; 110; 121] 0 / nth 0 [100; 110; 121] 0 - 1)));
             (key_annualized_return, ann_s);
             (key_volatility, vol_s);
             (key_sharpe, sharpe_s);
             (key_max_drawdown, mdd_s) ].
Proof.
  apply (performance_summary_report (fun _ => lit "x") [100; 110; 121]
           (Fin (2 / 100))).
  - repeat constructor; lra.
  - simpl; lia.
Defined.

End SummaryExamples.

(** ** Which request the fetcher sends *)

Section FetcherProperties.
Import Py Fetcher.

Variable DataFrame : Type.
Variable char_isdigit : codepoint -> bool.

(** X17: The date range is used only when both dates are given and not
    empty, and then [period] plays no part; if either date is missing or
    empty, both dates are ignored and the request is the one by [period]
    alone.  [get_crypto_data] sends the request of [get_stock_data] on the
    same arguments, and so follows the same rule. *)
Theorem get_stock_data_dates (t : tickers) (start end_ : option str)
  (period : str) :
  (truthy start = true -> truthy end_ = true ->
   get_stock_data DataFrame t start end_ period =
     Download (ByRange t start end_) (fun data => Ret data)
   /\ forall period',
        get_stock_data DataFrame t start end_ period' =
        get_stock_data DataFrame t start end_ period)
  /\ (truthy start = false \/ truthy end_ = false ->
      get_stock_data DataFrame t start end_ period =
        Download (ByPeriod t period) (fun data => Ret data)
      /\ get_stock_data DataFrame t start end_ period =
         get_stock_data DataFrame t None None period)
  /\ get_crypto_data DataFrame t start end_ period =
     get_stock_data DataFrame t start end_ period
  /\ (truthy start = true -> truthy end_ = true ->
      get_crypto_data DataFrame t start end_ period =
      Download (ByRange t start end_) (fun data => Ret data))
  /\ (truthy start = false \/ truthy end_ = false ->
      get_crypto_data DataFrame t start end_ period =
      Download (ByPeriod t period) (fun data => Ret data)).
Proof.
  unfold get_crypto_data, get_stock_data. split; [|split; [|split; [|split]]].
  - intros -> ->. split; [reflexivity | intros; reflexivity].
  - intros [-> | ->]; cbn [andb truthy];
      [|rewrite andb_false_r]; split; reflexivity.
  - reflexivity.
  - intros -> ->. reflexivity.
  - intros [-> | ->]; cbn [andb truthy];
      [|rewrite andb_false_r]; reflexivity.
Qed.

Lemma isdigit_suffixed (ticker : str) :
  char_isdigit 46%N = false ->
  isdigit char_isdigit (ticker ++ lit ".KS") = false.
Proof.
  intros Hdot. unfold isdigit.
  destruct (ticker ++ lit ".KS") as [|c s] eqn:E.
  - reflexivity.
  - rewrite <- E, forallb_app.
    change (lit ".KS") with [46%N; 75%N; 83%N]. cbn [forallb].
    rewrite Hdot. apply andb_false_r.
Qed.

(** X18: The ticker that [get_korean_stock_data] hands over is never one that
    [isdigit] accepts, and giving that ticker back to the function sends
    the same request: "005930" and "005930.KS" are interchangeable.  (The
    full stop is not a digit.) *)
Theorem get_korean_stock_data_normalises (ticker : str)
  (start end_ : option str) (period : str) :
  char_isdigit 46%N = false ->
  exists ticker',
    get_korean_stock_data DataFrame char_isdigit ticker start end_ period =
      get_stock_data DataFrame (Single ticker') start end_ period
    /\ isdigit char_isdigit ticker' = false
    /\ get_korean_stock_data DataFrame char_isdigit ticker' start end_ period =
       get_korean_stock_data DataFrame char_isdigit ticker start end_ period.
Proof.
  intros Hdot. unfold get_korean_stock_data.
  destruct (isdigit char_isdigit ticker) eqn:E.
  - exists (ticker ++ lit ".KS"). cbv zeta.
    rewrite isdigit_suffixed by exact Hdot. repeat split; reflexivity.
  - exists ticker. cbv zeta. rewrite E. repeat split; reflexivity.
Qed.

End FetcherProperties.

Section FetcherExamples.
Import Py Fetcher.

Lemma get_stock_data_dates_witness :
  get_stock_data unit (Single (lit "AAPL")) (Some (lit "2023-01-01")) None
    (lit "6mo") =
  get_stock_data unit (Single (lit "AAPL")) None None (lit "6mo").
Proof.
  apply (proj1 (proj2 (get_stock_data_dates unit (Single (lit "AAPL"))
                         (Some (lit "2023-01-01")) None (lit "6mo")))).
  right. reflexivity.
Defined.

Lemma get_korean_stock_data_normalises_witness :
  exists ticker',
    get_korean_stock_data unit ascii_isdigit (lit "005930") None None (lit "1y") =
      get_stock_data unit (Single ticker') None None (lit "1y")
    /\ isdigit ascii_isdigit ticker' = false
    /\ get_korean_stock_data unit ascii_isdigit ticker' None None (lit "1y") =
       get_korean_stock_data unit ascii_isdigit (lit "005930") None None (lit "1y").
Proof.
  apply (get_korean_stock_data_normalises unit ascii_isdigit (lit "005930")
           None None (lit "1y")).
  reflexivity.
Defined.

End FetcherExamples.

(** ** The annualised return over one year of data *)

Section SharpeFormula.
Import Py F Pd Returns.

Lemma annualized_return_fin_pos (l : list R) (p : Z) :
  l <> [] -> (0 < p)%Z -> 0 < Rprod (List.map (fun x => 1 + x) l) ->
  calculate_annualized_return (List.map Fin l) p =
  Ok (Fin (Rpower (Rprod (List.map (fun x => 1 + x) l))
             (IZR p / INR (length l)) - 1)).
Proof.
  intros Hl Hp Hbase.
  assert (Hn : INR (length l) <> 0)
    by (apply not_0_INR; destruct l; [congruence | simpl; lia]).
  assert (Hp' : 0 < IZR p) by (apply IZR_lt; exact Hp).
  rewrite calculate_annualized_return_ok;
    [| destruct l; [congruence | discriminate] | lia].
  rewrite radd_fin, prod_fin, length_map. cbn [fsub fadd].
  rewrite <- INR_IZR_INZ.
  replace (1 + (Rprod (List.map (fun x => 1 + x) l) - 1))
    with (Rprod (List.map (fun x => 1 + x) l)) by ring.
  replace (1 / (INR (length l) / IZR p)) with (IZR p / INR (length l))
    by (field; split; lra).
  rewrite power_pos; [reflexivity | exact Hbase |].
  apply Rgt_not_eq, Rdiv_lt_0_compat; [exact Hp'|].
  assert (0 <= INR (length l)) by apply pos_INR. lra.
Qed.

(** X19: With exactly [periods_per_year] observations (one year of data) the
    annualised return is the total compounded return of the series, when
    that total is above -1. *)
Theorem calculate_annualized_return_one_year (l : list R) :
  l <> [] -> 0 < Rprod (List.map (fun x => 1 + x) l) ->
  calculate_annualized_return (List.map Fin l) (Z.of_nat (length l)) =
  Ok (Fin (Rprod (List.map (fun x => 1 + x) l) - 1)).
Proof.
  intros Hl Hbase.
  assert (Hlen : (0 < length l)%nat) by (destruct l; [congruence | simpl; lia]).
  rewrite annualized_return_fin_pos by (assumption || lia).
  rewrite <- INR_IZR_INZ.
  replace (INR (length l) / INR (length l)) with 1
    by (field; apply not_0_INR; lia).
  rewrite Rpower_1 by exact Hbase. reflexivity.
Qed.

Lemma calculate_annualized_return_one_year_witness :
  calculate_annualized_return (List.map Fin [1 / 10; - 1 / 10]) 2 =
  Ok (Fin (Rprod (List.map (fun x => 1 + x) [1 / 10; - 1 / 10]) - 1)).
Proof.
  apply (calculate_annualized_return_one_year [1 / 10; - 1 / 10]).
  - discriminate.
  - unfold Rprod. cbn [List.map fold_right]. lra.
Defined.

End SharpeFormula.
